(** * semantique: reducers and query recipes

    A shallow embedding of [semantique/processor/reducers.py] and
    [semantique/recipe.py].

    Conventions of the embedding.
    - A float64 cell is one of the three IEEE special values (NaN, +inf,
      -inf) or a finite value, written as the rational it denotes.  Every
      arithmetic operation computes the exact result and rounds it to
      float64 (to nearest, ties to even, with gradual underflow and
      overflow to infinity); signed zeros are not represented.
    - An n-dimensional array is its shape together with its cells in
      row-major (C) order.  A numpy operation taking [axis] works on the
      one-dimensional lanes of the array that run along that axis.
    - Python exceptions are values of [exn]; code that can raise returns a
      [result]. *)

From Stdlib Require Import String.
From Stdlib Require Import List Bool Arith ZArith QArith Lia Lqa Sorted.
Import ListNotations.

Close Scope Q_scope.
Open Scope nat_scope.
Open Scope list_scope.

Set Implicit Arguments.

(** ** Python: exceptions and calls *)

Module Py.

Inductive exn : Type :=
| TypeError
| ValueError
| AttributeError
| UnsupportedTypeError.

Inductive result (A : Type) : Type :=
| Ok (a : A)
| Raise (e : exn).

Arguments Ok {A} a.
Arguments Raise {A} e.

Definition bind {A B} (m : result A) (k : A -> result B) : result B :=
  match m with
  | Ok a => k a
  | Raise e => Raise e
  end.

Definition fmap {A B} (g : A -> B) (m : result A) : result B :=
  bind m (fun a => Ok (g a)).

(** Evaluate the elements of a list from left to right; the first raise
    wins. *)
Fixpoint sequence {A : Type} (l : list (result A)) : result (list A) :=
  match l with
  | [] => Ok []
  | m :: l' => bind m (fun a => bind (sequence l') (fun r => Ok (a :: r)))
  end.

(** *** Binding the arguments of a call

    A function [def g(p1, ..., pn = d, **kwargs)] is described by its
    parameters in order, each with its default if it has one.  Positional
    arguments fill the parameters from the left, keyword arguments fill
    parameters by name, keywords naming no parameter are collected in
    [**kwargs], and a parameter left without a value and without a default
    raises [TypeError], as do a surplus positional argument and a keyword
    for a parameter that is already filled. *)

Section Call.
Variable V : Type.

Definition parameters := list (string * option V).
Definition keywords := list (string * V).

Fixpoint lookup (k : string) (l : keywords) : option V :=
  match l with
  | [] => None
  | (k', v) :: l' => if String.eqb k k' then Some v else lookup k l'
  end.

Definition has_key {W} (k : string) (l : list (string * W)) : bool :=
  existsb (fun kv => String.eqb k (fst kv)) l.

Fixpoint bind_positional (ps : parameters) (args : list V)
  : result (keywords * parameters) :=
  match args, ps with
  | [], _ => Ok ([], ps)
  | _ :: _, [] => Raise TypeError
  | a :: args', (n, _) :: ps' =>
      bind (bind_positional ps' args')
           (fun r => Ok ((n, a) :: fst r, snd r))
  end.

Fixpoint bind_remaining (ps : parameters) (kw : keywords) : result keywords :=
  match ps with
  | [] => Ok []
  | (n, d) :: ps' =>
      match lookup n kw, d with
      | Some v, _ | None, Some v =>
          bind (bind_remaining ps' kw) (fun r => Ok ((n, v) :: r))
      | None, None => Raise TypeError
      end
  end.

(** The bound parameters and the content of [**kwargs]. *)
Definition bind_arguments (ps : parameters) (args : list V) (kw : keywords)
  : result (keywords * keywords) :=
  bind (bind_positional ps args) (fun r =>
    let (filled, rest) := r in
    if existsb (fun kv => has_key (fst kv) filled) kw
    then Raise TypeError
    else
      bind (bind_remaining rest kw) (fun named =>
        Ok (filled ++ named,
            filter (fun kv => negb (has_key (fst kv) ps)) kw))).
End Call.

End Py.

Import Py.

Notation "x <- m ;; k" := (Py.bind m (fun x => k))
  (at level 61, m at next level, right associativity).

(** ** numpy *)

Module Np.

(** *** Cells *)

Inductive cell : Type :=
| NaN
| PInf
| NInf
| Fin (q : Q).

Class Default (A : Type) : Type := dflt : A.
#[export] Instance Default_cell : Default cell := NaN.
#[export] Instance Default_bool : Default bool := false.
#[export] Instance Default_nat : Default nat := 0.

(** [np.isfinite], [np.isnan] on one cell. *)
Definition isfinite (c : cell) : bool :=
  match c with Fin _ => true | _ => false end.

Definition isnan (c : cell) : bool :=
  match c with NaN => true | _ => false end.

(** Truth value of a float: everything except zero is true, NaN and the
    infinities included. *)
Definition truthy (c : cell) : bool :=
  match c with Fin q => negb (Qeq_bool q 0) | _ => true end.

(** Implicit conversions of numpy when integer or boolean arrays meet
    floats. *)
Definition float_of_nat (n : nat) : cell := Fin (inject_Z (Z.of_nat n)).
Definition float_of_bool (b : bool) : cell := if b then Fin 1 else Fin 0.
Definition int_of_bool (b : bool) : nat := if b then 1 else 0.

(** *** Rounding to float64

    A positive rational [n / d] lies in one binade [2^e <= n/d < 2^(e+1)].
    Its neighbours in float64 are the multiples of [2^ex], where
    [ex = max (e - 52) (-1074)]: 53 significant bits, and the fixed
    spacing of the subnormal numbers below [2^-1022]. *)

Definition floor_log2 (n d : positive) : Z :=
  let e0 := (Z.log2 (Zpos n) - Z.log2 (Zpos d))%Z in
  if (Zpos d * 2 ^ Z.max 0 e0 <=? Zpos n * 2 ^ Z.max 0 (- e0))%Z
  then e0 else (e0 - 1)%Z.

(** The integer nearest to [N / D], the even one of two that are equally
    near. *)
Definition round_half_even (N D : Z) : Z :=
  let k := (N / D)%Z in
  let r := (N mod D)%Z in
  if (2 * r <? D)%Z then k
  else if (D <? 2 * r)%Z then (k + 1)%Z
  else if Z.even k then k else (k + 1)%Z.

Definition round64_pos (n d : positive) : cell :=
  let e := floor_log2 n d in
  let ex := Z.max (e - 52) (-1074) in
  let N := (Zpos n * 2 ^ Z.max 0 (- ex))%Z in
  let D := (Zpos d * 2 ^ Z.max 0 ex)%Z in
  let m := round_half_even N D in
  if (0 <=? ex)%Z && (2 ^ 1024 <=? m * 2 ^ ex)%Z
  then PInf
  else Fin (Qred (Qmake (m * 2 ^ Z.max 0 ex) (Z.to_pos (2 ^ Z.max 0 (- ex))))).

Definition round64 (q : Q) : cell :=
  match Qnum q with
  | Z0 => Fin 0
  | Zpos n => round64_pos n (Qden q)
  | Zneg n =>
      match round64_pos n (Qden q) with
      | Fin r => Fin (Qopp r)
      | _ => NInf
      end
  end.

(** IEEE arithmetic: the special values, and the rounded exact result on
    finite ones. *)
Definition sign_pos (q : Q) : bool := Qle_bool 0 q.

Definition cneg (a : cell) : cell :=
  match a with
  | NaN => NaN
  | PInf => NInf
  | NInf => PInf
  | Fin q => Fin (Qopp q)
  end.

Definition cadd (a b : cell) : cell :=
  match a, b with
  | NaN, _ | _, NaN => NaN
  | PInf, NInf | NInf, PInf => NaN
  | PInf, _ | _, PInf => PInf
  | NInf, _ | _, NInf => NInf
  | Fin p, Fin q => round64 (Qplus p q)
  end.

Definition csub (a b : cell) : cell := cadd a (cneg b).

Definition inf_of_sign (pos : bool) : cell := if pos then PInf else NInf.

Definition cmul (a b : cell) : cell :=
  match a, b with
  | NaN, _ | _, NaN => NaN
  | Fin p, Fin q => round64 (Qmult p q)
  | Fin p, PInf | PInf, Fin p =>
      if Qeq_bool p 0 then NaN else inf_of_sign (sign_pos p)
  | Fin p, NInf | NInf, Fin p =>
      if Qeq_bool p 0 then NaN else inf_of_sign (negb (sign_pos p))
  | PInf, PInf | NInf, NInf => PInf
  | PInf, NInf | NInf, PInf => NInf
  end.

Definition cdiv (a b : cell) : cell :=
  match a, b with
  | NaN, _ | _, NaN => NaN
  | Fin p, Fin q =>
      if Qeq_bool q 0
      then (if Qeq_bool p 0 then NaN else inf_of_sign (sign_pos p))
      else round64 (Qdiv p q)
  | Fin _, PInf | Fin _, NInf => Fin 0
  | PInf, Fin q => inf_of_sign (sign_pos q)
  | NInf, Fin q => inf_of_sign (negb (sign_pos q))
  | PInf, PInf | PInf, NInf | NInf, PInf | NInf, NInf => NaN
  end.

(** Comparison of floats: false as soon as one side is NaN. *)
Definition clt (a b : cell) : bool :=
  match a, b with
  | NaN, _ | _, NaN => false
  | _, NInf => false
  | NInf, _ => true
  | PInf, _ => false
  | _, PInf => true
  | Fin p, Fin q => negb (Qle_bool q p)
  end.

Definition ceq (a b : cell) : bool :=
  match a, b with
  | PInf, PInf | NInf, NInf => true
  | Fin p, Fin q => Qeq_bool p q
  | _, _ => false
  end.

(** [np.fmax], [np.fmin]: the other operand when one is NaN. *)
Definition fmax (a b : cell) : cell :=
  match a, b with
  | NaN, _ => b
  | _, NaN => a
  | _, _ => if clt a b then b else a
  end.

Definition fmin (a b : cell) : cell :=
  match a, b with
  | NaN, _ => b
  | _, NaN => a
  | _, _ => if clt b a then b else a
  end.

(** [np.nan_to_num(c, nan = z, posinf = p, neginf = n)] on one cell. *)
Definition nan_to_num (z p n : cell) (c : cell) : cell :=
  match c with
  | NaN => z
  | PInf => p
  | NInf => n
  | Fin q => Fin q
  end.

(** *** One-dimensional lanes

    What the axis-wise numpy functions compute on a single lane. *)

Definition sum_nat (l : list nat) : nat := fold_left Nat.add l 0.

(** [np.sum] of a boolean lane counts its true entries. *)
Definition sum_bool (l : list bool) : nat := sum_nat (map int_of_bool l).

(** [np.add.reduce], [np.multiply.reduce] from their identities, adding
    the cells from left to right.  (numpy adds long contiguous runs in
    pairs; the two orders can differ in the last bits, and in whether an
    overflow happens on the way.) *)
Definition sum_cells (l : list cell) : cell := fold_left cadd l (Fin 0).
Definition prod_cells (l : list cell) : cell := fold_left cmul l (Fin 1).

(** [np.cumsum]. *)
Fixpoint cumsum_from (acc : nat) (l : list nat) : list nat :=
  match l with
  | [] => []
  | n :: l' => (acc + n) :: cumsum_from (acc + n) l'
  end.

Definition cumsum (l : list nat) : list nat := cumsum_from 0 l.

(** [np.flip]. *)
Definition flip {A} (l : list A) : list A := rev l.

(** [np.all], [np.any], [np.count_nonzero]. *)
Definition all_lane (l : list cell) : bool := forallb truthy l.
Definition any_lane (l : list cell) : bool := existsb truthy l.
Definition count_nonzero_lane (l : list cell) : nat :=
  length (filter truthy l).

(** numpy's private [_replace_nan(a, val)]: only NaN is replaced. *)
Definition replace_nan (v : cell) (c : cell) : cell :=
  if isnan c then v else c.

Definition count_not_nan (l : list cell) : nat :=
  length (filter (fun c => negb (isnan c)) l).

Definition nansum_lane (l : list cell) : cell :=
  sum_cells (map (replace_nan (Fin 0)) l).

Definition nanprod_lane (l : list cell) : cell :=
  prod_cells (map (replace_nan (Fin 1)) l).

(** [np.nanmean]: the NaN-replaced total over the count of non-NaN
    cells; 0/0 is NaN. *)
Definition nanmean_lane (l : list cell) : cell :=
  let arr := map (replace_nan (Fin 0)) l in
  let cnt := count_not_nan l in
  cdiv (sum_cells arr) (float_of_nat cnt).

(** [np.nanvar] with the default [ddof = 0]. *)
Definition nanvar_lane (l : list cell) : cell :=
  let arr := map (replace_nan (Fin 0)) l in
  let cnt := count_not_nan l in
  let avg := cdiv (sum_cells arr) (float_of_nat cnt) in
  let dev := map (fun c => if isnan c then Fin 0 else csub c avg) l in
  let sqr := map (fun d => cmul d d) dev in
  let var := cdiv (sum_cells sqr) (float_of_nat cnt) in
  if cnt <=? 0 then NaN else var.

(** [np.fmax.reduce] / [np.fmin.reduce] have no identity: an empty lane
    raises [ValueError]. *)
Definition fmax_reduce (l : list cell) : result cell :=
  match l with
  | [] => Raise ValueError
  | c :: l' => Ok (fold_left fmax l' c)
  end.

Definition fmin_reduce (l : list cell) : result cell :=
  match l with
  | [] => Raise ValueError
  | c :: l' => Ok (fold_left fmin l' c)
  end.

Definition nanmax_lane := fmax_reduce.
Definition nanmin_lane := fmin_reduce.

(** Sorting, as [np.sort] orders non-NaN floats. *)
Fixpoint insert_sorted (c : cell) (l : list cell) : list cell :=
  match l with
  | [] => [c]
  | d :: l' => if clt d c then d :: insert_sorted c l' else c :: l
  end.

Definition sort_cells (l : list cell) : list cell :=
  fold_right insert_sorted [] l.

(** [np.median] of a non-empty sorted lane: the middle cell, or the mean
    of the two middle cells. *)
Definition median_sorted (s : list cell) : cell :=
  let n := length s in
  if Nat.even n
  then cdiv (cadd (nth (n / 2 - 1) s NaN) (nth (n / 2) s NaN)) (Fin 2)
  else nth (n / 2) s NaN.

Definition nanmedian_lane (l : list cell) : cell :=
  match filter (fun c => negb (isnan c)) l with
  | [] => NaN
  | v => median_sorted (sort_cells v)
  end.

(** [np.unique(..., return_counts = True)] on sorted input keeps one cell
    of every run of equal cells. *)
Fixpoint dedup_sorted (s : list cell) : list cell :=
  match s with
  | [] => []
  | c :: s' =>
      match s' with
      | [] => [c]
      | d :: _ => if ceq c d then dedup_sorted s' else c :: dedup_sorted s'
      end
  end.

Definition occurrences (v : cell) (l : list cell) : nat :=
  length (filter (ceq v) l).

(** [argmax]: the first position holding the largest count, here returning
    the value stored there. *)
Fixpoint argmax_first (cnt : cell -> nat) (best : cell) (l : list cell) : cell :=
  match l with
  | [] => best
  | c :: l' => argmax_first cnt (if cnt best <? cnt c then c else best) l'
  end.

(** [scipy.stats.mode(a, axis, nan_policy = "omit")] as in the releases of
    scipy up to 1.10, for which [mode_] is written: their result keeps the
    reduced axis with length one, which the reducer then squeezes out.

    The function first asks whether the array contains a NaN, by testing
    whether the sum of all its cells is NaN.  If so, the invalid cells,
    NaN and the infinities alike, are masked, and every lane is reduced
    over the cells that are left; a lane with nothing left gives 0.
    Otherwise every lane is reduced over all of its cells.  Either way the
    distinct values are listed in increasing order with their counts, and
    the first value with the largest count is the mode. *)
Definition contains_nan (l : list cell) : bool := isnan (sum_cells l).

Definition mode_lane (masked : bool) (l : list cell) : cell :=
  let vals := if masked then filter isfinite l else l in
  match dedup_sorted (sort_cells vals) with
  | [] => Fin 0
  | u :: us => argmax_first (fun v => occurrences v vals) u us
  end.

(** [np.sqrt] on one cell; [sqrt_round] is the rounded square root of a
    non-negative finite value. *)
Definition csqrt (sqrt_round : Q -> Q) (c : cell) : cell :=
  match c with
  | NaN | NInf => NaN
  | PInf => PInf
  | Fin q => if Qle_bool 0 q then Fin (sqrt_round q) else NaN
  end.

Definition nanstd_lane (sqrt_round : Q -> Q) (l : list cell) : cell :=
  csqrt sqrt_round (nanvar_lane l).

(** *** Arrays *)

Record ndarray (A : Type) : Type := mk_ndarray {
  shape : list nat;
  data : list A
}.

Definition size_of (sh : list nat) : nat := fold_right Nat.mul 1 sh.

Definition well_formed {A} (x : ndarray A) : Prop :=
  length (data x) = size_of (shape x).

(** Row-major layout around [axis]: the flat index of the cell with outer
    index [i], position [t] on the axis and inner index [j] is
    [(i * extent + t) * inner + j]. *)
Definition outer (sh : list nat) (axis : nat) : nat := size_of (firstn axis sh).
Definition extent (sh : list nat) (axis : nat) : nat := nth axis sh 1.
Definition inner (sh : list nat) (axis : nat) : nat := size_of (skipn (S axis) sh).
Definition drop_axis (sh : list nat) (axis : nat) : list nat :=
  firstn axis sh ++ skipn (S axis) sh.
Definition n_lanes (sh : list nat) (axis : nat) : nat := outer sh axis * inner sh axis.

Section Lanes.
Context {A : Type} {dA : Default A}.

Definition lane (x : ndarray A) (axis i j : nat) : list A :=
  let sh := shape x in
  map (fun t => nth ((i * extent sh axis + t) * inner sh axis + j) (data x) dflt)
      (seq 0 (extent sh axis)).

(** The lane feeding output position [p] of a reduction along [axis]. *)
Definition lane_at (x : ndarray A) (axis p : nat) : list A :=
  lane x axis (p / inner (shape x) axis) (p mod inner (shape x) axis).

Definition lanes (x : ndarray A) (axis : nat) : list (list A) :=
  map (lane_at x axis) (seq 0 (n_lanes (shape x) axis)).

(** A reduction along [axis]: one output cell per lane. *)
Definition reduce_axis {B} (g : list A -> B) (x : ndarray A) (axis : nat) : ndarray B :=
  {| shape := drop_axis (shape x) axis; data := map g (lanes x axis) |}.

Definition reduce_axis_r {B} (g : list A -> result B) (x : ndarray A) (axis : nat)
  : result (ndarray B) :=
  cells <- sequence (map g (lanes x axis)) ;;
  Ok {| shape := drop_axis (shape x) axis; data := cells |}.

(** A reduction that keeps the reduced axis with length one. *)
Definition reduce_axis_keepdims {B} (g : list A -> B) (x : ndarray A) (axis : nat)
  : ndarray B :=
  {| shape := firstn axis (shape x) ++ 1 :: skipn (S axis) (shape x);
     data := map g (lanes x axis) |}.

(** An operation that rewrites every lane along [axis] in place. *)
Definition along_axis {B} {dB : Default B} (g : list A -> list B)
           (x : ndarray A) (axis : nat) : ndarray B :=
  let sh := shape x in
  {| shape := sh;
     data := map (fun p =>
                    nth ((p / inner sh axis) mod extent sh axis)
                        (g (lane x axis (p / (extent sh axis * inner sh axis))
                                 (p mod inner sh axis)))
                        dflt)
                 (seq 0 (length (data x))) |}.

Definition elementwise {B} (g : A -> B) (x : ndarray A) : ndarray B :=
  {| shape := shape x; data := map g (data x) |}.
End Lanes.

(** Operands of a broadcasting function: an array or a scalar. *)
Inductive operand (A : Type) : Type :=
| Arr (a : ndarray A)
| Sc (c : A).

Arguments Sc {A} c.

Definition operand_at {A} {dA : Default A} (o : operand A) (p : nat) : A :=
  match o with
  | Arr a => nth p (data a) dflt
  | Sc c => c
  end.

(** [np.where(cond, a, b)] for operands that agree with the shape of
    [cond]. *)
Definition np_where {A} {dA : Default A} (cond : ndarray bool) (a b : operand A)
  : ndarray A :=
  {| shape := shape cond;
     data := map (fun p => if nth p (data cond) dflt
                           then operand_at a p else operand_at b p)
                 (seq 0 (length (data cond))) |}.

(** Binary ufuncs on arrays of one shape, and with a scalar. *)
Definition np_binary {A B C} {dB : Default B} (g : A -> B -> C)
           (a : ndarray A) (b : operand B) : ndarray C :=
  {| shape := shape a;
     data := map (fun p => g (fst p) (operand_at b (snd p)))
                 (combine (data a) (seq 0 (length (data a)))) |}.

Definition np_isfinite (x : ndarray cell) : ndarray bool := elementwise isfinite x.
Definition np_nan_to_num (x : ndarray cell) (nan posinf neginf : cell) : ndarray cell :=
  elementwise (nan_to_num nan posinf neginf) x.
Definition astype_int (x : ndarray bool) : ndarray nat := elementwise int_of_bool x.
Definition astype_float_of_int (x : ndarray nat) : ndarray cell :=
  elementwise float_of_nat x.
Definition astype_float_of_bool (x : ndarray bool) : ndarray cell :=
  elementwise float_of_bool x.

Definition np_sum_bool (x : ndarray bool) (axis : nat) : ndarray nat :=
  reduce_axis sum_bool x axis.
Definition np_equal (x : ndarray nat) (k : nat) : ndarray bool :=
  elementwise (fun n => n =? k) x.
Definition np_cumsum (x : ndarray nat) (axis : nat) : ndarray nat :=
  along_axis cumsum x axis.
Definition np_flip (x : ndarray cell) (axis : nat) : ndarray cell :=
  along_axis flip x axis.
Definition np_all (x : ndarray cell) (axis : nat) : ndarray bool :=
  reduce_axis all_lane x axis.
Definition np_any (x : ndarray cell) (axis : nat) : ndarray bool :=
  reduce_axis any_lane x axis.
Definition np_count_nonzero (x : ndarray cell) (axis : nat) : ndarray nat :=
  reduce_axis count_nonzero_lane x axis.
Definition np_nansum (x : ndarray cell) (axis : nat) : ndarray cell :=
  reduce_axis nansum_lane x axis.
Definition np_nanprod (x : ndarray cell) (axis : nat) : ndarray cell :=
  reduce_axis nanprod_lane x axis.
Definition np_nanmean (x : ndarray cell) (axis : nat) : ndarray cell :=
  reduce_axis nanmean_lane x axis.
Definition np_nanvar (x : ndarray cell) (axis : nat) : ndarray cell :=
  reduce_axis nanvar_lane x axis.
Definition np_nanstd (sqrt_round : Q -> Q) (x : ndarray cell) (axis : nat)
  : ndarray cell :=
  reduce_axis (nanstd_lane sqrt_round) x axis.
Definition np_nanmedian (x : ndarray cell) (axis : nat) : ndarray cell :=
  reduce_axis nanmedian_lane x axis.
Definition np_nanmax (x : ndarray cell) (axis : nat) : result (ndarray cell) :=
  reduce_axis_r nanmax_lane x axis.
Definition np_nanmin (x : ndarray cell) (axis : nat) : result (ndarray cell) :=
  reduce_axis_r nanmin_lane x axis.
Definition np_divide (a : ndarray cell) (b : operand cell) : ndarray cell :=
  np_binary cdiv a b.
Definition np_multiply (a : ndarray cell) (b : operand cell) : ndarray cell :=
  np_binary cmul a b.

(** The mode array of [scipy.stats.mode]: empty and one-dimensional for
    an array without cells, and otherwise with the reduced axis kept. *)
Definition stats_mode (x : ndarray cell) (axis : nat) : ndarray cell :=
  if size_of (shape x) =? 0
  then {| shape := [0]; data := [] |}
  else reduce_axis_keepdims (mode_lane (contains_nan (data x))) x axis.

(** [ndarray.squeeze(axis)]: removes an axis of length one, [ValueError]
    otherwise. *)
Definition squeeze {A} (x : ndarray A) (axis : nat) : result (ndarray A) :=
  match nth_error (shape x) axis with
  | Some 1 => Ok {| shape := drop_axis (shape x) axis; data := data x |}
  | _ => Raise ValueError
  end.

End Np.

Import Np.

(** ** xarray data arrays and the reducers *)

Module Reducers.

Definition value_type := string.

(** A labelled array: dimension names, cells and the value-type
    attribute. *)
Record DataArray (A : Type) : Type := mk_DataArray {
  dims : list string;
  values : ndarray A;
  vtype : option value_type
}.

(** The cells fill the shape, and every axis has a name. *)
Definition array_ok {A} (x : DataArray A) : Prop :=
  well_formed (values x) /\ length (dims x) = length (shape (values x)).

(** A one-dimensional array along the dimension [dim]. *)
Definition vector (dim : string) (t : option value_type) (l : list cell)
  : DataArray cell :=
  {| dims := [dim];
     values := {| shape := [length l]; data := l |};
     vtype := t |}.

Definition set_vtype {A} (t : option value_type) (a : DataArray A) : DataArray A :=
  {| dims := dims a; values := values a; vtype := t |}.

(** The Python objects that reach a reducer. *)
Inductive pyval : Type :=
| PyNone
| PyBool (b : bool)
| PyInt (n : nat)
| PyStr (s : string)
| PyNdarray (a : ndarray cell)
| PyDataArray (a : DataArray cell).

(** The keywords a reducer collects in [**kwargs].  Python binds [x],
    [dimension] and [track_types] itself, so these three names never
    occur among them. *)
Definition kwargs := keywords pyval.

(** What a call leaves behind besides its value. *)
Inductive event : Type :=
| PromoteValueType (func : string).

(** Computations that may raise and that record events. *)
Definition M (A : Type) : Type := list event -> list event * result A.

Definition ret {A} (a : A) : M A := fun tr => (tr, Ok a).
Definition raise {A} (e : exn) : M A := fun tr => (tr, Raise e).
Definition lift {A} (r : result A) : M A := fun tr => (tr, r).
Definition emit (ev : event) : M unit := fun tr => (tr ++ [ev], Ok tt).
Definition mbind {A B} (m : M A) (k : A -> M B) : M B :=
  fun tr =>
    match m tr with
    | (tr', Ok a) => k a tr'
    | (tr', Raise e) => (tr', Raise e)
    end.

Notation "x <~ m ;; k" := (mbind m (fun x => k))
  (at level 61, m at next level, right associativity).

Definition run {A} (m : M A) : list event * result A := m [].

(** A promotion template: for a reducer name and the value type of the
    input, the value type of the output, if the pair is supported. *)
Definition template := string -> option value_type -> option value_type.

(** Modelled from the spec: [promote_value_type] of the [sq] accessor
    (semantique/processor/arrays.py is not part of the sources).  It looks
    up the pair of operation and input value type in the template, fails
    with [UnsupportedTypeError] when there is no entry, and otherwise sets
    the value-type attribute of the output, leaving its cells and shape
    alone. *)
Definition promote_value_type {A} (out : DataArray A) (x : DataArray cell)
           (func : string) (manual : template) : M (DataArray A) :=
  _ <~ emit (PromoteValueType func) ;;
  match manual func (vtype x) with
  | Some t => ret (set_vtype (Some t) out)
  | None => raise UnsupportedTypeError
  end.

Fixpoint index_of (d : string) (l : list string) : option nat :=
  match l with
  | [] => None
  | d' :: l' => if String.eqb d d' then Some 0 else option_map S (index_of d l')
  end.

Fixpoint remove_nth {A} (k : nat) (l : list A) : list A :=
  match l, k with
  | [], _ => []
  | _ :: l', 0 => l'
  | a :: l', S k' => a :: remove_nth k' l'
  end.

(** [DataArray.get_axis_num]: an unknown dimension is a [ValueError]. *)
Definition get_axis_num {A} (x : DataArray A) (dim : string) : result nat :=
  match index_of dim (dims x) with
  | Some k => Ok k
  | None => Raise ValueError
  end.

(** [xarray] hands a function result to [as_compatible_data] before it
    becomes the data of the reduced array. *)
Definition as_compatible_data (v : pyval) : M (ndarray cell) :=
  match v with
  | PyNdarray a => ret a
  | PyDataArray a => ret (values a)
  | _ => raise TypeError
  end.

(** *** Options of [DataArray.reduce]

    The reducers call [x.reduce(f, dim = dimension, **kwargs)], and
    [DataArray.reduce] has the signature
    [reduce(self, func, dim = None, *, axis = None, keep_attrs = None,
    keepdims = False, **kwargs)].  So a keyword named [self], [func] or
    [dim] collides with an argument of the call, the keywords [axis],
    [keep_attrs] and [keepdims] are options of the reduction itself, and
    only the other keywords reach [f]. *)

Definition own_names : list string := ["x"; "dimension"; "track_types"]%string.
Definition clash_names : list string := ["self"; "func"; "dim"]%string.
Definition option_names : list string := ["axis"; "keep_attrs"; "keepdims"]%string.

Definition names_any (names : list string) (kw : kwargs) : bool :=
  existsb (fun n => has_key n kw) names.

Definition call_clashes (kw : kwargs) : bool := names_any clash_names kw.

(** Keywords that name none of the above: they are handed to [f]
    unchanged, and [f] ignores them. *)
Definition plain_options (kw : kwargs) : bool :=
  negb (names_any (own_names ++ clash_names ++ option_names) kw).

Definition other_options (kw : kwargs) : kwargs :=
  filter (fun kv => negb (existsb (String.eqb (fst kv)) option_names)) kw.

Definition axis_given (kw : kwargs) : bool :=
  match lookup "axis" kw with
  | None | Some PyNone => false
  | Some _ => true
  end.

(** Keywords that collide with no argument of the two calls. *)
Definition binds_cleanly (kw : kwargs) : bool :=
  negb (names_any (own_names ++ clash_names) kw).

(** The truth value of a Python object.  An array has one only if it has
    at most one cell (numpy 1.x: an array without cells is false). *)
Definition truth_of_cells (l : list cell) : result bool :=
  match l with
  | [] => Ok false
  | [c] => Ok (truthy c)
  | _ :: _ :: _ => Raise ValueError
  end.

Definition truth (v : pyval) : result bool :=
  match v with
  | PyNone => Ok false
  | PyBool b => Ok b
  | PyInt n => Ok (negb (n =? 0))
  | PyStr s => Ok (negb (String.eqb s EmptyString))
  | PyNdarray a => truth_of_cells (data a)
  | PyDataArray a => truth_of_cells (data (values a))
  end.

Fixpoint same_shape (a b : list nat) : bool :=
  match a, b with
  | [], [] => true
  | n :: a', m :: b' => (n =? m) && same_shape a' b'
  | _, _ => false
  end.

(** The option [keepdims], false unless given. *)
Definition keepdims_asked (kw : kwargs) : result bool :=
  match lookup "keepdims" kw with
  | None => Ok false
  | Some v => truth v
  end.

(** [data[slices]] with [np.newaxis] at the removed axis. *)
Definition newaxis {B} (axis : nat) (cells : ndarray B) : ndarray B :=
  {| shape := firstn axis (shape cells) ++ 1 :: skipn axis (shape cells);
     data := data cells |}.

Section WithEnvironment.
(** [xarray]'s global [keep_attrs] option. *)
Variable keep_attrs : bool.
(** [semantique.processor.templates.TYPE_PROMOTION_TEMPLATES], by reducer
    family. *)
Variable TYPE_PROMOTION_TEMPLATES : string -> template.
(** The rounded square root of float64. *)
Variable sqrt_round : Q -> Q.

(** The array made of the cells that [f] returned.  If they have the
    shape of the input, the dimensions stay; otherwise the reduced
    dimension is dropped, or kept with length one under [keepdims].  The
    attributes, the value type among them, are kept only under
    [keep_attrs]. *)
Definition reduced {B} (keepdims keep : bool)
           (x : DataArray cell) (axis : nat) (cells : ndarray B) : DataArray B :=
  let attrs := if keep then vtype x else None in
  if same_shape (shape cells) (shape (values x))
  then {| dims := dims x; values := cells; vtype := attrs |}
  else if keepdims
  then {| dims := dims x; values := newaxis axis cells; vtype := attrs |}
  else {| dims := remove_nth axis (dims x); values := cells; vtype := attrs |}.

Definition keepdims_option {B} (x : DataArray cell) (cells : ndarray B) (kw : kwargs)
  : result bool :=
  if same_shape (shape cells) (shape (values x)) then Ok false
  else keepdims_asked kw.

Definition keep_attrs_option (kw : kwargs) : result bool :=
  match lookup "keep_attrs" kw with
  | None | Some PyNone => Ok keep_attrs
  | Some v => truth v
  end.

(** [x.reduce(f, dim = dimension, **kwargs)]: giving [axis] next to [dim]
    is refused; [f] is called once, with the cells, the axis number of the
    dimension as keyword [axis], and the keywords that are not options of
    [reduce]. *)
Definition xr_reduce {B} (f : ndarray cell -> nat -> kwargs -> M (ndarray B))
           (x : DataArray cell) (dimension : string) (kw : kwargs)
  : M (DataArray B) :=
  if call_clashes kw then raise TypeError
  else if axis_given kw then raise ValueError
  else
    axis <~ lift (get_axis_num x dimension) ;;
    cells <~ f (values x) axis (other_options kw) ;;
    keepdims <~ lift (keepdims_option x cells kw) ;;
    keep <~ lift (keep_attrs_option kw) ;;
    ret (reduced keepdims keep x axis cells).

(** The body shared by all reducers. *)
Definition reducer {B} (f : ndarray cell -> nat -> kwargs -> M (ndarray B))
           (family func : string)
           (x : DataArray cell) (dimension : string) (track_types : bool)
           (kw : kwargs) : M (DataArray B) :=
  out <~ xr_reduce f x dimension kw ;;
  if track_types then
    let manual := TYPE_PROMOTION_TEMPLATES family in
    promote_value_type out x func manual
  else ret out.

Definition _is_all_nodata (x : ndarray cell) (axis : nat) : ndarray bool :=
  np_equal (np_sum_bool (np_isfinite x) axis) 0.

Definition _nodata_as_zero (x : ndarray cell) : ndarray cell :=
  np_nan_to_num x (Fin 0) (Fin 0) (Fin 0).

(** *** Numerical reducers *)

Definition mean_f (x : ndarray cell) (axis : nat) (kw : kwargs) : M (ndarray cell) :=
  ret (np_nanmean x axis).
Definition mean_ := reducer mean_f "numerical_reducers" "mean".

Definition product_f (x : ndarray cell) (axis : nat) (kw : kwargs) : M (ndarray cell) :=
  let values := np_nanprod x axis in
  ret (np_where (_is_all_nodata x axis) (Sc NaN) (Arr values)).
Definition product_ := reducer product_f "numerical_reducers" "product".

Definition standard_deviation_f (x : ndarray cell) (axis : nat) (kw : kwargs)
  : M (ndarray cell) :=
  ret (np_nanstd sqrt_round x axis).
Definition standard_deviation_ :=
  reducer standard_deviation_f "numerical_reducers" "standard_deviation".

Definition sum_f (x : ndarray cell) (axis : nat) (kw : kwargs) : M (ndarray cell) :=
  let values := np_nansum x axis in
  ret (np_where (_is_all_nodata x axis) (Sc NaN) (Arr values)).
Definition sum_ := reducer sum_f "numerical_reducers" "sum".

Definition variance_f (x : ndarray cell) (axis : nat) (kw : kwargs) : M (ndarray cell) :=
  ret (np_nanvar x axis).
Definition variance_ := reducer variance_f "numerical_reducers" "variance".

(** *** Boolean reducers *)

Definition all_f (x : ndarray cell) (axis : nat) (kw : kwargs) : M (ndarray cell) :=
  let values := np_all x axis in
  ret (np_where (_is_all_nodata x axis) (Sc NaN) (Arr (astype_float_of_bool values))).
Definition all_ := reducer all_f "boolean_reducers" "all".

Definition any_f (x : ndarray cell) (axis : nat) (kw : kwargs) : M (ndarray bool) :=
  ret (np_any (_nodata_as_zero x) axis).
Definition any_ := reducer any_f "boolean_reducers" "any".

(** *** Count reducers *)

Definition count_f (x : ndarray cell) (axis : nat) (kw : kwargs) : M (ndarray cell) :=
  let values := np_count_nonzero (_nodata_as_zero x) axis in
  ret (np_where (_is_all_nodata x axis) (Sc NaN) (Arr (astype_float_of_int values))).
Definition count_ := reducer count_f "count_reducers" "count".

Definition percentage_f (x : ndarray cell) (axis : nat) (kw : kwargs) : M (ndarray cell) :=
  let part := np_count_nonzero (_nodata_as_zero x) axis in
  let part := np_where (_is_all_nodata x axis) (Sc NaN) (Arr (astype_float_of_int part)) in
  let whole := np_sum_bool (np_isfinite x) axis in
  ret (np_multiply (np_divide part (Arr (astype_float_of_int whole))) (Sc (Fin 100))).
Definition percentage_ := reducer percentage_f "count_reducers" "percentage".

(** *** Ordered reducers *)

Definition max_f (x : ndarray cell) (axis : nat) (kw : kwargs) : M (ndarray cell) :=
  lift (np_nanmax x axis).
Definition max_ := reducer max_f "ordered_reducers" "max".

Definition median_f (x : ndarray cell) (axis : nat) (kw : kwargs) : M (ndarray cell) :=
  ret (np_nanmedian x axis).
Definition median_ := reducer median_f "ordered_reducers" "median".

Definition min_f (x : ndarray cell) (axis : nat) (kw : kwargs) : M (ndarray cell) :=
  lift (np_nanmin x axis).
Definition min_ := reducer min_f "ordered_reducers" "min".

(** *** Universal reducers *)

(** The mask [is_last] computed by [first_]. *)
Definition first_is_last (x : ndarray cell) (axis : nat) : ndarray bool :=
  let is_value := np_isfinite x in
  np_equal (np_cumsum (np_cumsum (astype_int is_value) axis) axis) 1.

Definition first_f (x : ndarray cell) (axis : nat) (kw : kwargs) : M (ndarray cell) :=
  let is_last := first_is_last x axis in
  lift (np_nanmax (np_where is_last (Arr x) (Sc NaN)) axis).
Definition first_ := reducer first_f "universal_reducers" "first".

(** [first_] as a Python callable,
    [def first_(x, dimension, track_types = True, **kwargs)]: the
    arguments are bound first; the body then needs a data array for
    [x.reduce] and a dimension name. *)
Definition first_parameters : parameters pyval :=
  [("x", None); ("dimension", None); ("track_types", Some (PyBool true))]%string.

Definition first_call (args : list pyval) (kw : kwargs) : M pyval :=
  bound <~ lift (bind_arguments first_parameters args kw) ;;
  let (named, extra) := bound in
  match lookup "x" named, lookup "dimension" named, lookup "track_types" named with
  | Some (PyDataArray x), Some (PyStr dimension), Some (PyBool track_types) =>
      out <~ first_ x dimension track_types extra ;;
      ret (PyDataArray out)
  | Some (PyDataArray _), _, _ => raise TypeError
  | _, _, _ => raise AttributeError
  end.

Definition last_f (x : ndarray cell) (axis : nat) (kw : kwargs) : M (ndarray cell) :=
  r <~ first_call [PyNdarray (np_flip x axis)] [("axis"%string, PyInt axis)] ;;
  as_compatible_data r.
Definition last_ := reducer last_f "universal_reducers" "last".

Definition mode_f (x : ndarray cell) (axis : nat) (kw : kwargs) : M (ndarray cell) :=
  values <~ lift (squeeze (stats_mode x axis) axis) ;;
  ret (np_where (_is_all_nodata x axis) (Sc NaN) (Arr values)).
Definition mode_ := reducer mode_f "universal_reducers" "mode".

End WithEnvironment.

End Reducers.

(** ** Query recipes *)

Module Recipe.

(** A Python [dict] with string keys: its items in insertion order, no
    key twice. *)
Definition dict (V : Type) : Type := list (string * V).

Definition dict_keys {V} (d : dict V) : list string := map fst d.

Definition dict_ok {V} (d : dict V) : Prop := NoDup (dict_keys d).

Fixpoint dict_get {V} (k : string) (d : dict V) : option V :=
  match d with
  | [] => None
  | (k', v) :: d' => if String.eqb k k' then Some v else dict_get k d'
  end.

(** [d[k] = v]: an existing key keeps its place, a new key goes last. *)
Fixpoint dict_setitem {V} (k : string) (v : V) (d : dict V) : dict V :=
  match d with
  | [] => [(k, v)]
  | (k', v') :: d' =>
      if String.eqb k k' then (k, v) :: d' else (k', v') :: dict_setitem k v d'
  end.

(** [dict.__init__(self, obj)] / [self.update(obj)]: the items of [obj]
    are stored one by one. *)
Definition dict_update {V} (self obj : dict V) : dict V :=
  fold_left (fun acc kv => dict_setitem (fst kv) (snd kv) acc) obj self.

Section QueryRecipe.
(** Result instructions ([ArrayProxy] objects). *)
Variable Instruction : Type.

Definition QueryRecipe : Type := dict Instruction.

(** [QueryRecipe.__init__(self, results = None)] on the fresh, empty
    [self]. *)
Definition init (results : option (dict Instruction)) : QueryRecipe :=
  let obj := match results with None => [] | Some r => r end in
  dict_update [] obj.

(** The collaborators of [execute]; the query processor
    (semantique/processor/core.py) is not part of the sources and is
    taken as given: its three phases, each of which may raise. *)
Variables Datacube Mapping SpatialExtent TemporalExtent : Type.
Variable ConfigValue : Type.
Variable QueryProcessor : Type.
Variable Array : Type.

Definition config := keywords ConfigValue.
Definition response := dict Array.

Variable parse :
  QueryRecipe -> Datacube -> Mapping -> SpatialExtent -> TemporalExtent ->
  config -> result QueryProcessor.
Variable optimize : QueryProcessor -> result QueryProcessor.
Variable qp_execute : QueryProcessor -> result response.

(** The calls made on the query processor, with their arguments. *)
Inductive call : Type :=
| CallParse (recipe : QueryRecipe) (datacube : Datacube) (mapping : Mapping)
            (space : SpatialExtent) (time : TemporalExtent) (options : config)
| CallOptimize (qp : QueryProcessor)
| CallExecute (qp : QueryProcessor).

Definition T (A : Type) : Type := list call -> list call * result A.

Definition invoke {A} (c : call) (r : result A) : T A :=
  fun log => (log ++ [c], r).

Definition tbind {A B} (m : T A) (k : A -> T B) : T B :=
  fun log =>
    match m log with
    | (log', Ok a) => k a log'
    | (log', Raise e) => (log', Raise e)
    end.

(** [QueryRecipe.execute(self, datacube, mapping, space, time, **config)]. *)
Definition execute (self : QueryRecipe) (datacube : Datacube) (mapping : Mapping)
           (space : SpatialExtent) (time : TemporalExtent) (options : config)
  : T response :=
  tbind (invoke (CallParse self datacube mapping space time options)
                (parse self datacube mapping space time options))
        (fun qp =>
  tbind (invoke (CallOptimize qp) (optimize qp))
        (fun optimized =>
  invoke (CallExecute optimized) (qp_execute optimized))).
End QueryRecipe.

Arguments CallParse {Instruction Datacube Mapping SpatialExtent TemporalExtent
                     ConfigValue QueryProcessor}.
Arguments CallOptimize {Instruction Datacube Mapping SpatialExtent TemporalExtent
                        ConfigValue QueryProcessor}.
Arguments CallExecute {Instruction Datacube Mapping SpatialExtent TemporalExtent
                       ConfigValue QueryProcessor}.

End Recipe.

(** ** The reducers seen on one lane

    What each reducer computes for the lane behind one output position;
    the section on reducers below proves that the array code above does
    exactly this at every position. *)

Module Lanewise.

Definition is_all_nodata_lane (l : list cell) : bool :=
  sum_bool (map isfinite l) =? 0.

Definition nodata_as_zero_lane (l : list cell) : list cell :=
  map (nan_to_num (Fin 0) (Fin 0) (Fin 0)) l.

(** [np.where(cond, a, nan)] along a lane. *)
Definition where_lane (cond : list bool) (l : list cell) (other : cell) : list cell :=
  map (fun cx : bool * cell => if fst cx then snd cx else other) (combine cond l).

Definition guarded (l : list cell) (v : cell) : cell :=
  if is_all_nodata_lane l then NaN else v.

Definition all_value_lane (l : list cell) : cell :=
  guarded l (float_of_bool (all_lane l)).
Definition any_value_lane (l : list cell) : bool :=
  any_lane (nodata_as_zero_lane l).
Definition count_lane (l : list cell) : cell :=
  guarded l (float_of_nat (count_nonzero_lane (nodata_as_zero_lane l))).
Definition percentage_lane (l : list cell) : cell :=
  cmul (cdiv (count_lane l) (float_of_nat (sum_bool (map isfinite l)))) (Fin 100).
Definition is_last_lane (l : list cell) : list bool :=
  map (fun n => n =? 1) (cumsum (cumsum (map int_of_bool (map isfinite l)))).
Definition first_lane (l : list cell) : result cell :=
  nanmax_lane (where_lane (is_last_lane l) l NaN).
Definition mode_value_lane (masked : bool) (l : list cell) : cell :=
  guarded l (mode_lane masked l).

(** The mask that is true at the first finite cell of a lane and nowhere
    else. *)
Fixpoint mark_first (l : list cell) : list bool :=
  match l with
  | [] => []
  | c :: l' =>
      if isfinite c then true :: map (fun _ => false) l' else false :: mark_first l'
  end.

(** The first finite cell of a lane in coordinate order, no-data if there
    is none. *)
Definition first_finite (l : list cell) : cell :=
  match find isfinite l with
  | Some v => v
  | None => NaN
  end.

(** The finite cells of a lane, and those among them that are
    true-equivalent. *)
Definition finite_count (l : list cell) : nat := length (filter isfinite l).
Definition true_count (l : list cell) : nat :=
  length (filter (fun c => isfinite c && truthy c) l).

(** The infinite cells of an array turned into no-data. *)
Definition infinity_as_nodata (c : cell) : cell :=
  match c with
  | PInf | NInf => NaN
  | _ => c
  end.

Definition map_cells (g : cell -> cell) (x : Reducers.DataArray cell)
  : Reducers.DataArray cell :=
  {| Reducers.dims := Reducers.dims x;
     Reducers.values := elementwise g (Reducers.values x);
     Reducers.vtype := Reducers.vtype x |}.

(** A reducer treats infinite cells as no-data when turning them into
    no-data beforehand changes nothing. *)
Definition treats_infinity_as_nodata {B}
           (R : Reducers.DataArray cell -> string -> bool -> Reducers.kwargs ->
                Reducers.M (Reducers.DataArray B)) : Prop :=
  forall x dimension track_types kw,
    Reducers.run (R x dimension track_types kw)
    = Reducers.run (R (map_cells infinity_as_nodata x) dimension track_types kw).


(** A reducer keeps a missing slice missing when every output position
    whose reduced slice consists of no-data cells only holds no-data in
    whatever array the reducer returns. *)
Definition keeps_missing_slices
           (R : Reducers.DataArray cell -> string -> bool -> Reducers.kwargs ->
                Reducers.M (Reducers.DataArray cell)) : Prop :=
  forall x dimension axis kw p track_types tr out,
    Reducers.array_ok x ->
    Reducers.get_axis_num x dimension = Ok axis ->
    p < n_lanes (shape (Reducers.values x)) axis ->
    (forall c, In c (lane_at (Reducers.values x) axis p) -> c = NaN) ->
    Reducers.run (R x dimension track_types kw) = (tr, Ok out) ->
    nth p (data (Reducers.values out)) NaN = NaN.

(** An inner function that records no event. *)
Definition silent {B}
           (f : ndarray cell -> nat -> Reducers.kwargs -> Reducers.M (ndarray B))
  : Prop :=
  forall x axis kw tr, fst (f x axis kw tr) = tr.

(** What [track_types] decides for a reducer [R] with inner function [f],
    name [func] and promotion template [manual].  Without tracking, [R] is
    [x.reduce(f, dim = dimension, **kwargs)] and nothing is promoted.
    With tracking, if the reduction returns an array, the value type is
    promoted exactly once, and what comes back is that same array with
    the value type the template gives for [func] and the value type of
    the input, or [UnsupportedTypeError] if the template has no entry.  If
    the reduction raises, [R] raises the same and nothing is promoted. *)
Definition track_types_contract (keep_attrs : bool) (manual : Reducers.template) {B}
           (f : ndarray cell -> nat -> Reducers.kwargs -> Reducers.M (ndarray B))
           (func : string)
           (R : Reducers.DataArray cell -> string -> bool -> Reducers.kwargs ->
                Reducers.M (Reducers.DataArray B)) : Prop :=
  forall x dimension kw,
    let reduction := Reducers.run (Reducers.xr_reduce keep_attrs f x dimension kw) in
    Reducers.run (R x dimension false kw) = reduction /\
    fst reduction = [] /\
    Reducers.run (R x dimension true kw)
    = match snd reduction with
      | Ok out =>
          ([Reducers.PromoteValueType func],
           match manual func (Reducers.vtype x) with
           | Some t => Ok (Reducers.set_vtype (Some t) out)
           | None => Raise UnsupportedTypeError
           end)
      | Raise e => ([], Raise e)
      end.

End Lanewise.

(** ** Contracts of the reducers

    Predicates in which further properties of the reducers are stated. *)

Module Contracts.

(** Whatever array a reducer returns is well formed and has one cell for
    every reduced slice.  It has the dimensions and the shape of the input
    without the reduced dimension, or, if the option [keepdims] is given
    and true, with the reduced dimension kept at length one. *)
Definition drops_the_dimension {B}
           (R : Reducers.DataArray cell -> string -> bool -> Reducers.kwargs ->
                Reducers.M (Reducers.DataArray B)) : Prop :=
  forall x dimension kw track_types tr out,
    Reducers.array_ok x ->
    Reducers.run (R x dimension track_types kw) = (tr, Ok out) ->
    exists axis keepdims,
      let sh := shape (Reducers.values x) in
      Reducers.get_axis_num x dimension = Ok axis /\
      Reducers.keepdims_asked kw = Ok keepdims /\
      Reducers.dims out
      = (if keepdims then Reducers.dims x
         else Reducers.remove_nth axis (Reducers.dims x)) /\
      shape (Reducers.values out)
      = (if keepdims then firstn axis sh ++ 1 :: skipn (S axis) sh
         else drop_axis sh axis) /\
      length (data (Reducers.values out)) = n_lanes sh axis /\
      Reducers.array_ok out.

(** An inner function whose result has the reduced shape, one cell per
    lane. *)
Definition fills_the_shape {B}
           (f : ndarray cell -> nat -> Reducers.kwargs -> Reducers.M (ndarray B))
  : Prop :=
  forall x axis kw tr tr' out,
    f x axis kw tr = (tr', Ok out) ->
    shape out = drop_axis (shape x) axis /\
    length (data out) = n_lanes (shape x) axis.

(** A dimension the array does not have is refused before anything is
    reduced or promoted: with [TypeError] if a keyword collides with an
    argument of [x.reduce], and with [ValueError] otherwise. *)
Definition rejects_unknown_dimension {B}
           (R : Reducers.DataArray cell -> string -> bool -> Reducers.kwargs ->
                Reducers.M (Reducers.DataArray B)) : Prop :=
  forall x dimension kw track_types,
    ~ In dimension (Reducers.dims x) ->
    (Reducers.binds_cleanly kw = true ->
     Reducers.run (R x dimension track_types kw) = ([], Raise ValueError)) /\
    (Reducers.call_clashes kw = true ->
     Reducers.run (R x dimension track_types kw) = ([], Raise TypeError)).

(** A reducer that cannot reduce an empty dimension: with output
    positions to fill it raises [ValueError] and promotes nothing,
    whatever the options; on a dimension that is not empty it returns. *)
Definition needs_cells
           (R : Reducers.DataArray cell -> string -> bool -> Reducers.kwargs ->
                Reducers.M (Reducers.DataArray cell)) : Prop :=
  forall x dimension axis kw,
    Reducers.array_ok x ->
    Reducers.get_axis_num x dimension = Ok axis ->
    (extent (shape (Reducers.values x)) axis = 0 ->
     0 < n_lanes (shape (Reducers.values x)) axis ->
     Reducers.binds_cleanly kw = true ->
     forall track_types,
       Reducers.run (R x dimension track_types kw) = ([], Raise ValueError)) /\
    (0 < extent (shape (Reducers.values x)) axis ->
     Reducers.plain_options kw = true ->
     exists out, Reducers.run (R x dimension false kw) = ([], Ok out)).

End Contracts.

(** * Properties *)

Import Reducers.

(** ** Lists *)

Module ListFacts.

Lemma map_nth_seq {A} (l : list A) (d : A) :
  map (fun t => nth t l d) (seq 0 (length l)) = l.
Proof.
  induction l as [|a l IH]; simpl; [reflexivity|].
  f_equal. rewrite <- seq_shift, map_map. exact IH.
Qed.

Lemma nth_map_seq {A} (g : nat -> A) (n p : nat) (d : A) :
  p < n -> nth p (map g (seq 0 n)) d = g p.
Proof.
  intros Hp.
  rewrite (nth_indep _ d (g 0)) by (rewrite length_map, length_seq; exact Hp).
  rewrite (map_nth g (seq 0 n) 0 p), seq_nth by exact Hp. reflexivity.
Qed.

Lemma nth_map_in {A B} (g : A -> B) (l : list A) (p : nat) (d : A) (e : B) :
  p < length l -> nth p (map g l) e = g (nth p l d).
Proof.
  intros Hp.
  rewrite (nth_indep _ e (g d)) by (rewrite length_map; exact Hp).
  apply map_nth.
Qed.

Lemma map_seq_ext {A} (g h : nat -> A) (n : nat) :
  (forall t, t < n -> g t = h t) -> map g (seq 0 n) = map h (seq 0 n).
Proof.
  intros E. apply map_ext_in. intros t Ht. apply in_seq in Ht. apply E. lia.
Qed.

End ListFacts.

(** ** Row-major layout *)

Module LayoutFacts.
Import ListFacts.

Lemma size_of_app (a b : list nat) : size_of (a ++ b) = size_of a * size_of b.
Proof.
  induction a as [|n a IH]; simpl; [lia|]. rewrite IH. lia.
Qed.

Lemma size_of_split (sh : list nat) (axis : nat) :
  axis < length sh ->
  size_of sh = outer sh axis * (extent sh axis * inner sh axis).
Proof.
  unfold outer, extent, inner. revert axis.
  induction sh as [|n sh IH]; intros axis H; simpl in H; [lia|].
  destruct axis as [|axis]; simpl.
  - lia.
  - rewrite (IH axis) by lia. simpl. lia.
Qed.

Lemma size_of_drop_axis (sh : list nat) (axis : nat) :
  size_of (drop_axis sh axis) = n_lanes sh axis.
Proof. unfold drop_axis, n_lanes, outer, inner. apply size_of_app. Qed.

(** Decomposition of a flat index. *)
Lemma index_decompose (n m i t j : nat) :
  t < n -> j < m ->
  let q := (i * n + t) * m + j in
  q / m = i * n + t /\ q mod m = j /\ (q / m) mod n = t /\ q / (n * m) = i.
Proof.
  intros Ht Hj q. subst q.
  assert (Hm : m <> 0) by lia. assert (Hn : n <> 0) by lia.
  assert (E1 : ((i * n + t) * m + j) / m = i * n + t).
  { rewrite Nat.div_add_l by exact Hm. rewrite (Nat.div_small j m) by exact Hj. lia. }
  repeat split.
  - exact E1.
  - rewrite Nat.add_comm, Nat.Div0.mod_add. apply Nat.mod_small; exact Hj.
  - rewrite E1. rewrite Nat.add_comm, Nat.Div0.mod_add. apply Nat.mod_small; exact Ht.
  - rewrite (Nat.mul_comm n m), <- Nat.Div0.div_div, E1.
    rewrite Nat.div_add_l by exact Hn. rewrite (Nat.div_small t n) by exact Ht. lia.
Qed.

Lemma index_bound (o n m i t j : nat) :
  i < o -> t < n -> j < m -> (i * n + t) * m + j < o * (n * m).
Proof.
  intros Hi Ht Hj.
  assert (H1 : i * n + t + 1 <= o * n) by nia.
  assert (H2 : (i * n + t + 1) * m <= o * n * m) by (apply Nat.mul_le_mono_r; exact H1).
  lia.
Qed.

Lemma lane_position (m o p : nat) :
  p < o * m -> p / m < o /\ p mod m < m.
Proof.
  intros Hp. assert (m <> 0) by nia. split.
  - apply Nat.Div0.div_lt_upper_bound. lia.
  - apply Nat.mod_upper_bound. assumption.
Qed.

Section Lane.
Context {A : Type} {dA : Default A}.

Lemma lane_length (x : ndarray A) (axis i j : nat) :
  length (lane x axis i j) = extent (shape x) axis.
Proof. unfold lane. rewrite length_map, length_seq. reflexivity. Qed.

Lemma lanes_length (x : ndarray A) (axis : nat) :
  length (lanes x axis) = n_lanes (shape x) axis.
Proof. unfold lanes. rewrite length_map, length_seq. reflexivity. Qed.

Lemma nth_lanes (x : ndarray A) (axis p : nat) (d : list A) :
  p < n_lanes (shape x) axis -> nth p (lanes x axis) d = lane_at x axis p.
Proof. intros Hp. unfold lanes. apply nth_map_seq. exact Hp. Qed.

(** The cell at output position [p] of a reduction is the reduction of
    the lane at [p]. *)
Lemma nth_reduce_axis {B} (g : list A -> B) (x : ndarray A) (axis p : nat) (d : B) :
  p < n_lanes (shape x) axis ->
  nth p (data (reduce_axis g x axis)) d = g (lane_at x axis p).
Proof.
  intros Hp. simpl.
  rewrite (nth_map_in g (lanes x axis) [] d) by (rewrite lanes_length; exact Hp).
  rewrite nth_lanes by exact Hp. reflexivity.
Qed.

Lemma lane_elementwise {B} {dB : Default B} (g : A -> B) (x : ndarray A)
      (axis i j : nat) :
  well_formed x -> axis < length (shape x) ->
  i < outer (shape x) axis -> j < inner (shape x) axis ->
  lane (elementwise g x) axis i j = map g (lane x axis i j).
Proof.
  intros Hwf Hax Hi Hj. unfold lane. simpl. rewrite map_map.
  apply map_seq_ext. intros t Ht.
  apply nth_map_in. rewrite Hwf, (size_of_split _ Hax).
  apply index_bound; assumption.
Qed.

Lemma lane_along_axis {B} {dB : Default B} (g : list A -> list B) (x : ndarray A)
      (axis i j : nat) :
  well_formed x -> axis < length (shape x) ->
  (forall l, length (g l) = length l) ->
  i < outer (shape x) axis -> j < inner (shape x) axis ->
  lane (along_axis g x axis) axis i j = g (lane x axis i j).
Proof.
  intros Hwf Hax Hlen Hi Hj. unfold lane at 1. simpl.
  set (n := extent (shape x) axis). set (m := inner (shape x) axis).
  rewrite <- (map_nth_seq (g (lane x axis i j)) dflt) at 1.
  rewrite Hlen, lane_length. fold n.
  apply map_seq_ext. intros t Ht.
  rewrite nth_map_seq.
  2:{ rewrite Hwf, (size_of_split _ Hax). apply index_bound; assumption. }
  destruct (index_decompose i Ht Hj) as (E1 & E2 & E3 & E4).
  fold n m in E2, E3, E4 |- *. rewrite E2, E3, E4. reflexivity.
Qed.
End Lane.

End LayoutFacts.

(** ** From arrays to lanes *)

Module ArrayFacts.
Import ListFacts LayoutFacts Lanewise.

Section At.
Variable x : ndarray cell.
Variable axis p : nat.
Hypothesis Hwf : well_formed x.
Hypothesis Hax : axis < length (shape x).
Hypothesis Hp : p < n_lanes (shape x) axis.

Lemma lane_at_elementwise {B} {dB : Default B} (g : cell -> B) :
  lane_at (elementwise g x) axis p = map g (lane_at x axis p).
Proof.
  unfold lane_at. simpl.
  destruct (lane_position _ _ Hp) as [Hi Hj].
  apply lane_elementwise; assumption.
Qed.

Lemma is_all_nodata_at :
  nth p (data (_is_all_nodata x axis)) false
  = is_all_nodata_lane (lane_at x axis p).
Proof.
  unfold _is_all_nodata, np_equal, np_sum_bool, np_isfinite, is_all_nodata_lane.
  simpl data.
  rewrite (nth_map_in _ _ 0 false) by (rewrite length_map, lanes_length; exact Hp).
  rewrite (nth_map_in _ _ [] 0) by (rewrite lanes_length; exact Hp).
  rewrite nth_lanes by exact Hp.
  rewrite lane_at_elementwise. reflexivity.
Qed.

Lemma is_all_nodata_length :
  length (data (_is_all_nodata x axis)) = n_lanes (shape x) axis.
Proof.
  unfold _is_all_nodata, np_equal, np_sum_bool, np_isfinite. simpl.
  rewrite !length_map, lanes_length. reflexivity.
Qed.

(** The all-no-data guard shared by the reducers. *)
Lemma guarded_at (v : ndarray cell) :
  nth p (data (np_where (_is_all_nodata x axis) (Sc NaN) (Arr v))) NaN
  = guarded (lane_at x axis p) (nth p (data v) NaN).
Proof.
  unfold np_where. cbn [data].
  rewrite nth_map_seq by (rewrite is_all_nodata_length; exact Hp).
  unfold guarded. change (@dflt bool _) with false.
  rewrite is_all_nodata_at. reflexivity.
Qed.

Lemma nodata_as_zero_at :
  lane_at (_nodata_as_zero x) axis p = nodata_as_zero_lane (lane_at x axis p).
Proof. unfold _nodata_as_zero, np_nan_to_num. apply lane_at_elementwise. Qed.
End At.

Lemma well_formed_elementwise {A B} (g : A -> B) (x : ndarray A) :
  well_formed x -> well_formed (elementwise g x).
Proof. unfold well_formed. simpl. rewrite length_map. auto. Qed.

Lemma well_formed_along_axis {A B} {dA : Default A} {dB : Default B}
      (g : list A -> list B) (x : ndarray A) (axis : nat) :
  well_formed x -> well_formed (along_axis g x axis).
Proof. unfold well_formed. simpl. rewrite length_map, length_seq. auto. Qed.

Lemma lane_at_along_axis {A B} {dA : Default A} {dB : Default B}
      (g : list A -> list B) (x : ndarray A) (axis p : nat) :
  well_formed x -> axis < length (shape x) ->
  (forall l, length (g l) = length l) ->
  p < n_lanes (shape x) axis ->
  lane_at (along_axis g x axis) axis p = g (lane_at x axis p).
Proof.
  intros Hwf Hax Hlen Hp. unfold lane_at. simpl shape.
  destruct (lane_position _ _ Hp) as [Hi Hj].
  apply lane_along_axis; assumption.
Qed.

Lemma lane_at_elementwise_gen {A B} {dA : Default A} {dB : Default B}
      (g : A -> B) (x : ndarray A) (axis p : nat) :
  well_formed x -> axis < length (shape x) ->
  p < n_lanes (shape x) axis ->
  lane_at (elementwise g x) axis p = map g (lane_at x axis p).
Proof.
  intros Hwf Hax Hp. unfold lane_at. simpl shape.
  destruct (lane_position _ _ Hp) as [Hi Hj].
  apply lane_elementwise; assumption.
Qed.

(** [np.where(mask, x, nan)] on arrays of one shape, lane by lane. *)
Lemma lane_at_where (mask : ndarray bool) (x : ndarray cell) (s : cell) (axis p : nat) :
  well_formed x -> shape mask = shape x -> length (data mask) = length (data x) ->
  axis < length (shape x) -> p < n_lanes (shape x) axis ->
  lane_at (np_where mask (Arr x) (Sc s)) axis p
  = where_lane (lane_at mask axis p) (lane_at x axis p) s.
Proof.
  intros Hwf Hsh Hlen Hax Hp.
  unfold lane_at, lane, where_lane. simpl shape. rewrite Hsh.
  destruct (lane_position _ _ Hp) as [Hi Hj].
  set (n := extent (shape x) axis). set (m := inner (shape x) axis).
  set (i := p / m) in *. set (j := p mod m) in *.
  assert (E : forall (g h : nat -> _),
             combine (map g (seq 0 n)) (map h (seq 0 n))
             = map (fun t => (g t : bool, h t : cell)) (seq 0 n)).
  { intros g h. induction (seq 0 n) as [|t l IH]; simpl; [reflexivity|].
    rewrite IH. reflexivity. }
  rewrite E, map_map. apply map_seq_ext. intros t Ht. simpl.
  rewrite nth_map_seq.
  - reflexivity.
  - rewrite Hlen, Hwf, (size_of_split _ Hax). apply index_bound; assumption.
Qed.

Lemma sequence_map_ok {A B} (g : A -> result B) (l : list A) (r : list B) :
  sequence (map g l) = Ok r ->
  length r = length l /\
  forall p d e, p < length l -> g (nth p l d) = Ok (nth p r e).
Proof.
  revert r. induction l as [|a l IH]; simpl; intros r H.
  - inversion H. split; [reflexivity|]. intros; simpl in *; lia.
  - destruct (g a) as [b|] eqn:Ea; simpl in H; [|discriminate].
    destruct (sequence (map g l)) as [r'|] eqn:Er; simpl in H; [|discriminate].
    inversion H; subst r. destruct (IH r' eq_refl) as [Hl Hn].
    split; [simpl; congruence|].
    intros [|p] d e Hp; simpl; [exact Ea|]. apply Hn. lia.
Qed.

Lemma sequence_map_total {A B} (g : A -> result B) (l : list A) :
  (forall a, In a l -> exists b, g a = Ok b) ->
  exists r, sequence (map g l) = Ok r.
Proof.
  induction l as [|a l IH]; simpl; intros H.
  - eexists; reflexivity.
  - destruct (H a (or_introl eq_refl)) as [b Eb].
    destruct IH as [r Er]; [intros; apply H; right; assumption|].
    exists (b :: r). rewrite Eb, Er. reflexivity.
Qed.

(** A reduction that can raise returns, at every position, what it
    returns on the lane. *)
Lemma reduce_axis_r_at {A B} {dA : Default A} (g : list A -> result B)
      (x : ndarray A) (axis p : nat) (out : ndarray B) (d : B) :
  reduce_axis_r g x axis = Ok out ->
  p < n_lanes (shape x) axis ->
  g (lane_at x axis p) = Ok (nth p (data out) d).
Proof.
  unfold reduce_axis_r. intros H Hp.
  destruct (sequence (map g (lanes x axis))) as [r|] eqn:Er; simpl in H; [|discriminate].
  inversion H; subst out. simpl.
  destruct (sequence_map_ok _ _ Er) as [_ Hn].
  rewrite <- (nth_lanes x axis [] Hp).
  apply Hn. rewrite lanes_length. exact Hp.
Qed.

Lemma reduce_axis_r_total {A B} {dA : Default A} (g : list A -> result B)
      (x : ndarray A) (axis : nat) :
  (forall p, p < n_lanes (shape x) axis -> exists b, g (lane_at x axis p) = Ok b) ->
  exists out, reduce_axis_r g x axis = Ok out.
Proof.
  intros H. unfold reduce_axis_r.
  destruct (sequence_map_total g (lanes x axis)) as [r Er].
  - intros l Hl. unfold lanes in Hl. apply in_map_iff in Hl.
    destruct Hl as (p & <- & Hp). apply in_seq in Hp. apply H. lia.
  - rewrite Er. simpl. eexists; reflexivity.
Qed.

End ArrayFacts.

(** ** The shared body of the reducers *)

Module BodyFacts.

Lemma has_key_lookup (n : string) (kw : kwargs) :
  has_key n kw = false -> lookup n kw = None.
Proof.
  induction kw as [|[k v] kw IH]; simpl; intros H; [reflexivity|].
  apply orb_false_elim in H. destruct H as [Hk Hr].
  rewrite Hk. apply IH. exact Hr.
Qed.

Lemma names_any_false (names : list string) (kw : kwargs) (n : string) :
  names_any names kw = false -> In n names -> has_key n kw = false.
Proof.
  unfold names_any. intros H Hn.
  destruct (has_key n kw) eqn:E; [|reflexivity].
  assert (existsb (fun n => has_key n kw) names = true) as Ht
    by (apply existsb_exists; exists n; split; assumption).
  congruence.
Qed.

Lemma names_any_app (a b : list string) (kw : kwargs) :
  names_any (a ++ b) kw = names_any a kw || names_any b kw.
Proof. unfold names_any. apply existsb_app. Qed.

Lemma other_options_id (kw : kwargs) :
  names_any option_names kw = false -> other_options kw = kw.
Proof.
  intros H.
  pose proof (@names_any_false _ kw "axis"%string H) as Ha.
  pose proof (@names_any_false _ kw "keep_attrs"%string H) as Hk.
  pose proof (@names_any_false _ kw "keepdims"%string H) as Hd.
  clear H.
  specialize (Ha ltac:(simpl; tauto)).
  specialize (Hk ltac:(simpl; tauto)).
  specialize (Hd ltac:(simpl; tauto)).
  unfold other_options.
  unfold has_key in Ha, Hk, Hd.
  induction kw as [|[k v] kw IH]; [reflexivity|].
  cbn [existsb fst] in Ha, Hk, Hd.
  apply orb_false_elim in Ha. apply orb_false_elim in Hk. apply orb_false_elim in Hd.
  destruct Ha as [Ha Ha'], Hk as [Hk Hk'], Hd as [Hd Hd'].
  cbn [filter fst existsb option_names].
  rewrite (String.eqb_sym k "axis"), (String.eqb_sym k "keep_attrs"),
    (String.eqb_sym k "keepdims"), Ha, Hk, Hd.
  cbn [orb negb]. f_equal. apply IH; assumption.
Qed.

(** Keywords that name no argument and no option: the reduction behaves
    as if called with the defaults. *)
Lemma plain_options_spec (kw : kwargs) :
  plain_options kw = true ->
  binds_cleanly kw = true /\ call_clashes kw = false /\ axis_given kw = false /\
  other_options kw = kw /\ keepdims_asked kw = Ok false /\
  lookup "keep_attrs" kw = None.
Proof.
  unfold plain_options, binds_cleanly, call_clashes. intros H.
  apply negb_true_iff in H.
  rewrite !names_any_app in H.
  apply orb_false_elim in H. destruct H as [Ho H].
  apply orb_false_elim in H. destruct H as [Hc Hopt].
  rewrite names_any_app, Ho, Hc.
  pose proof (@names_any_false _ kw "axis"%string Hopt ltac:(simpl; tauto)) as Ha.
  pose proof (@names_any_false _ kw "keep_attrs"%string Hopt ltac:(simpl; tauto)) as Hk.
  pose proof (@names_any_false _ kw "keepdims"%string Hopt ltac:(simpl; tauto)) as Hd.
  unfold axis_given, keepdims_asked.
  rewrite (has_key_lookup _ _ Ha), (has_key_lookup _ _ Hk), (has_key_lookup _ _ Hd).
  repeat split. apply other_options_id. exact Hopt.
Qed.

Lemma binds_cleanly_no_clash (kw : kwargs) :
  binds_cleanly kw = true -> call_clashes kw = false.
Proof.
  unfold binds_cleanly, call_clashes. intros H. apply negb_true_iff in H.
  rewrite names_any_app in H. apply orb_false_elim in H. tauto.
Qed.

Section Body.
Variable keep_attrs : bool.
Variable templates : string -> template.
Context {B : Type}.
Variable f : ndarray cell -> nat -> kwargs -> M (ndarray B).
Variables family func : string.
Variable x : DataArray cell.
Variable dimension : string.
Variable kw : kwargs.

Lemma run_xr_reduce :
  run (xr_reduce keep_attrs f x dimension kw)
  = if call_clashes kw then ([], Raise TypeError)
    else if axis_given kw then ([], Raise ValueError)
    else
      match get_axis_num x dimension with
      | Raise e => ([], Raise e)
      | Ok axis =>
          match f (values x) axis (other_options kw) [] with
          | (tr, Raise e) => (tr, Raise e)
          | (tr, Ok cells) =>
              (tr,
               keepdims <- keepdims_option x cells kw ;;
               keep <- keep_attrs_option keep_attrs kw ;;
               Ok (reduced keepdims keep x axis cells))
          end
      end.
Proof.
  unfold run, xr_reduce.
  destruct (call_clashes kw); [reflexivity|].
  destruct (axis_given kw); [reflexivity|].
  unfold mbind, lift, ret.
  destruct (get_axis_num x dimension) as [axis|e]; [|reflexivity].
  destruct (f (values x) axis (other_options kw) []) as [tr [cells|e]]; [|reflexivity].
  destruct (keepdims_option x cells kw); [|reflexivity].
  destruct (keep_attrs_option keep_attrs kw); reflexivity.
Qed.

(** The reducer is the reduction, followed under [track_types] by the
    promotion. *)
Lemma run_reducer (track_types : bool) :
  run (reducer keep_attrs templates f family func x dimension track_types kw)
  = match run (xr_reduce keep_attrs f x dimension kw) with
    | (tr, Raise e) => (tr, Raise e)
    | (tr, Ok out) =>
        if track_types then
          (tr ++ [PromoteValueType func],
           match templates family func (vtype x) with
           | Some t => Ok (set_vtype (Some t) out)
           | None => Raise UnsupportedTypeError
           end)
        else (tr, Ok out)
    end.
Proof.
  unfold run, reducer, mbind.
  destruct (xr_reduce keep_attrs f x dimension kw []) as [tr [out|e]]; [|reflexivity].
  destruct track_types; [|reflexivity].
  unfold promote_value_type, mbind, emit, ret, raise.
  destruct (templates family func (vtype x)); reflexivity.
Qed.

(** With keywords that are no options, the reduction drops the
    dimension and follows the global [keep_attrs]. *)
Lemma run_reducer_plain (track_types : bool) :
  plain_options kw = true ->
  run (reducer keep_attrs templates f family func x dimension track_types kw)
  = match get_axis_num x dimension with
    | Raise e => ([], Raise e)
    | Ok axis =>
        match f (values x) axis kw [] with
        | (tr, Raise e) => (tr, Raise e)
        | (tr, Ok cells) =>
            if track_types then
              (tr ++ [PromoteValueType func],
               match templates family func (vtype x) with
               | Some t => Ok (set_vtype (Some t) (reduced false keep_attrs x axis cells))
               | None => Raise UnsupportedTypeError
               end)
            else (tr, Ok (reduced false keep_attrs x axis cells))
        end
    end.
Proof.
  intros Hp. apply plain_options_spec in Hp.
  destruct Hp as (_ & Hc & Ha & Ho & Hk & Hka).
  rewrite run_reducer, run_xr_reduce, Hc, Ha, Ho.
  destruct (get_axis_num x dimension) as [axis|e]; [|reflexivity].
  destruct (f (values x) axis kw []) as [tr [cells|e]]; [|reflexivity].
  unfold keepdims_option, keep_attrs_option. rewrite Hk, Hka.
  unfold reduced.
  destruct (same_shape (shape cells) (shape (values x))); reflexivity.
Qed.

(** A reducer that returns has reduced an existing dimension, and its
    cells are those returned by [f]. *)
Lemma reducer_returns (track_types : bool) tr out :
  run (reducer keep_attrs templates f family func x dimension track_types kw)
  = (tr, Ok out) ->
  exists axis tr0 cells,
    get_axis_num x dimension = Ok axis /\
    f (values x) axis (other_options kw) [] = (tr0, Ok cells) /\
    data (values out) = data cells /\
    exists keepdims keep,
      keepdims_option x cells kw = Ok keepdims /\
      dims out = dims (reduced keepdims keep x axis cells) /\
      values out = values (reduced keepdims keep x axis cells).
Proof.
  rewrite run_reducer, run_xr_reduce.
  destruct (call_clashes kw); [discriminate|].
  destruct (axis_given kw); [discriminate|].
  destruct (get_axis_num x dimension) as [axis|e]; [|discriminate].
  destruct (f (values x) axis (other_options kw) []) as [tr0 [cells|e]] eqn:Ef;
    [|discriminate].
  destruct (keepdims_option x cells kw) as [kd|e] eqn:Ekd; [|discriminate].
  destruct (keep_attrs_option keep_attrs kw) as [ka|e]; [|discriminate].
  cbn [Py.bind].
  assert (Hdata : data (values (reduced kd ka x axis cells)) = data cells).
  { unfold reduced. destruct (same_shape _ _); [reflexivity|].
    destruct kd; reflexivity. }
  intros H. exists axis, tr0, cells.
  split; [reflexivity|]. split; [exact Ef|].
  destruct track_types.
  - destruct (templates family func (vtype x)); inversion H; subst.
    split; [exact Hdata|]. exists kd, ka. repeat split. exact Ekd.
  - inversion H; subst.
    split; [exact Hdata|]. exists kd, ka. repeat split. exact Ekd.
Qed.

(** A reducer never returns when its inner function never does. *)
Lemma reducer_raises (track_types : bool) :
  (forall a axis kw' tr, exists e, f a axis kw' tr = (tr, Raise e)) ->
  exists e,
    run (reducer keep_attrs templates f family func x dimension track_types kw)
    = ([], Raise e).
Proof.
  intros Hf. rewrite run_reducer, run_xr_reduce.
  destruct (call_clashes kw); [eexists; reflexivity|].
  destruct (axis_given kw); [eexists; reflexivity|].
  destruct (get_axis_num x dimension) as [axis|e]; [|eexists; reflexivity].
  destruct (Hf (values x) axis (other_options kw) []) as [e He].
  rewrite He. eexists; reflexivity.
Qed.
End Body.

Lemma index_of_bound (d : string) (l : list string) (k : nat) :
  index_of d l = Some k -> k < length l.
Proof.
  revert k. induction l as [|d' l IH]; simpl; intros k H; [discriminate|].
  destruct (String.eqb d d').
  - inversion H. lia.
  - destruct (index_of d l) as [k'|]; simpl in H; [|discriminate].
    inversion H. specialize (IH k' eq_refl). lia.
Qed.

Lemma get_axis_num_bound {A} (x : DataArray A) (dim : string) (axis : nat) :
  array_ok x -> get_axis_num x dim = Ok axis -> axis < length (shape (values x)).
Proof.
  intros [_ Hd] H. unfold get_axis_num in H.
  destruct (index_of dim (dims x)) as [k|] eqn:E; [|discriminate].
  inversion H; subst. rewrite <- Hd. eapply index_of_bound; eassumption.
Qed.

End BodyFacts.

(** ** [first_] *)

Module FirstFacts.
Import ListFacts LayoutFacts ArrayFacts BodyFacts Lanewise.

Lemma cumsum_from_length (a : nat) (l : list nat) :
  length (cumsum_from a l) = length l.
Proof. revert a. induction l; simpl; intros; [reflexivity|]. f_equal. apply IHl. Qed.

Lemma cumsum_length (l : list nat) : length (cumsum l) = length l.
Proof. apply cumsum_from_length. Qed.

(** Once one finite cell has been counted, the twice-cumulated count
    stays above one. *)
Lemma marks_after_first (a b : nat) (l : list cell) :
  1 <= a -> 1 <= b ->
  map (fun n => n =? 1) (cumsum_from a (cumsum_from b (map int_of_bool (map isfinite l))))
  = map (fun _ => false) l.
Proof.
  revert a b. induction l as [|c l IH]; intros a b Ha Hb; simpl; [reflexivity|].
  rewrite IH by lia. f_equal. apply Nat.eqb_neq. lia.
Qed.

Lemma marks_before_first (l : list cell) :
  map (fun n => n =? 1) (cumsum_from 0 (cumsum_from 0 (map int_of_bool (map isfinite l))))
  = mark_first l.
Proof.
  induction l as [|c l IH]; simpl; [reflexivity|].
  destruct (isfinite c); simpl.
  - rewrite marks_after_first by lia. reflexivity.
  - rewrite IH. reflexivity.
Qed.

Lemma is_last_lane_mark_first (l : list cell) : is_last_lane l = mark_first l.
Proof. apply marks_before_first. Qed.

Lemma fmax_nan_r (v : cell) : fmax v NaN = v.
Proof. destruct v; reflexivity. Qed.

Lemma where_lane_cons (b : bool) (m : list bool) (c : cell) (l : list cell) (s : cell) :
  where_lane (b :: m) (c :: l) s = (if b then c else s) :: where_lane m l s.
Proof. reflexivity. Qed.

Lemma fold_fmax_unmarked (l : list cell) (v : cell) :
  fold_left fmax (where_lane (map (fun _ => false) l) l NaN) v = v.
Proof.
  revert v. induction l as [|c l IH]; intros v; [reflexivity|].
  cbn [map]. rewrite where_lane_cons. cbn [fold_left].
  rewrite fmax_nan_r. apply IH.
Qed.

Lemma fold_fmax_marked (l : list cell) :
  fold_left fmax (where_lane (mark_first l) l NaN) NaN = first_finite l.
Proof.
  unfold first_finite.
  induction l as [|c l IH]; [reflexivity|].
  cbn [mark_first find].
  destruct (isfinite c) eqn:Ec; rewrite where_lane_cons; cbn [fold_left fmax].
  - apply fold_fmax_unmarked.
  - exact IH.
Qed.

(** On a lane, [first_] selects the first finite cell. *)
Lemma first_lane_first_finite (l : list cell) :
  l <> [] -> first_lane l = Ok (first_finite l).
Proof.
  intros Hl. unfold first_lane. rewrite is_last_lane_mark_first.
  destruct l as [|c l]; [congruence|].
  unfold first_finite at 1. cbn [mark_first find].
  destruct (isfinite c) eqn:Ec; rewrite where_lane_cons;
    unfold nanmax_lane, fmax_reduce.
  - rewrite fold_fmax_unmarked. reflexivity.
  - rewrite fold_fmax_marked. reflexivity.
Qed.

Lemma first_lane_empty : first_lane [] = Raise ValueError.
Proof. reflexivity. Qed.

Section Array.
Variable x : ndarray cell.
Variable axis : nat.
Hypothesis Hwf : well_formed x.
Hypothesis Hax : axis < length (shape x).

Lemma lane_at_is_last (p : nat) :
  p < n_lanes (shape x) axis ->
  lane_at (first_is_last x axis) axis p = is_last_lane (lane_at x axis p).
Proof.
  intros Hp. unfold first_is_last, np_equal, np_cumsum, astype_int, np_isfinite.
  rewrite lane_at_elementwise_gen; simpl shape; try assumption.
  2:{ repeat first [apply well_formed_along_axis | apply well_formed_elementwise].
      exact Hwf. }
  rewrite lane_at_along_axis; simpl shape; try assumption.
  2:{ repeat first [apply well_formed_along_axis | apply well_formed_elementwise].
      exact Hwf. }
  2:{ apply cumsum_length. }
  rewrite lane_at_along_axis; simpl shape; try assumption.
  2:{ repeat first [apply well_formed_along_axis | apply well_formed_elementwise].
      exact Hwf. }
  2:{ apply cumsum_length. }
  rewrite lane_at_elementwise_gen; simpl shape; try assumption.
  2:{ apply well_formed_elementwise. exact Hwf. }
  rewrite lane_at_elementwise_gen by assumption.
  reflexivity.
Qed.

Lemma lane_at_masked (p : nat) :
  p < n_lanes (shape x) axis ->
  lane_at (np_where (first_is_last x axis) (Arr x) (Sc NaN)) axis p
  = where_lane (is_last_lane (lane_at x axis p)) (lane_at x axis p) NaN.
Proof.
  intros Hp. rewrite lane_at_where; try assumption.
  - rewrite lane_at_is_last by exact Hp. reflexivity.
  - reflexivity.
  - unfold first_is_last, np_equal, np_cumsum, astype_int, np_isfinite. simpl.
    repeat first [rewrite length_map | rewrite length_seq]. reflexivity.
Qed.

Lemma first_f_at (kw : kwargs) (tr0 tr : list event) (out : ndarray cell) (p : nat) :
  first_f x axis kw tr0 = (tr, Ok out) ->
  p < n_lanes (shape x) axis ->
  tr = tr0 /\ first_lane (lane_at x axis p) = Ok (nth p (data out) NaN).
Proof.
  unfold first_f, lift. intros H Hp. inversion H as [[Ht Ho]]. split; [reflexivity|].
  unfold np_nanmax in Ho.
  pose proof (@reduce_axis_r_at _ _ _ _ _ _ p _ NaN Ho) as Hat. simpl shape in Hat.
  specialize (Hat Hp). rewrite lane_at_masked in Hat by exact Hp. exact Hat.
Qed.

Lemma first_f_total (kw : kwargs) (tr0 : list event) :
  0 < extent (shape x) axis ->
  exists out, first_f x axis kw tr0 = (tr0, Ok out).
Proof.
  intros Hn. unfold first_f, lift, np_nanmax.
  destruct (reduce_axis_r_total nanmax_lane
              (np_where (first_is_last x axis) (Arr x) (Sc NaN)) axis) as [out Eo].
  - intros p Hp. simpl shape in Hp. rewrite lane_at_masked by exact Hp.
    change (nanmax_lane (where_lane (is_last_lane (lane_at x axis p)) (lane_at x axis p) NaN))
      with (first_lane (lane_at x axis p)).
    rewrite first_lane_first_finite; [eexists; reflexivity|].
    intros E. apply (f_equal (@length _)) in E.
    unfold lane_at in E. rewrite lane_length in E. simpl in E. lia.
  - exists out. rewrite Eo. reflexivity.
Qed.
End Array.

(** C3. For every array and reduction dimension, at every output
    position: the mask computed from the twice-cumulated count of finite
    cells marks exactly the first finite cell of the reduced slice; called
    without options of [reduce], the reducer returns whenever the slice is
    not empty; and whatever it returns, under any options, holds at that
    position the first finite cell of the slice in coordinate order.  On
    [nodata, 2, nodata, 5] it returns 2. *)
Theorem first_returns_first_finite
    (keep_attrs : bool) (templates : string -> template)
    (x : DataArray cell) (dimension : string) (axis : nat) (p : nat) :
  array_ok x ->
  get_axis_num x dimension = Ok axis ->
  p < n_lanes (shape (values x)) axis ->
  let l := lane_at (values x) axis p in
  lane_at (first_is_last (values x) axis) axis p = mark_first l /\
  (forall kw,
      plain_options kw = true -> l <> [] ->
      exists out, run (first_ keep_attrs templates x dimension false kw) = ([], Ok out)) /\
  (forall kw track_types tr out,
      run (first_ keep_attrs templates x dimension track_types kw) = (tr, Ok out) ->
      nth p (data (values out)) NaN = first_finite l) /\
  (forall t kw,
      plain_options kw = true ->
      run (first_ keep_attrs templates
                  (vector "time" t [NaN; Fin 2; NaN; Fin 5]) "time" false kw)
      = ([], Ok {| dims := [];
                   values := {| shape := []; data := [Fin 2] |};
                   vtype := if keep_attrs then t else None |})).
Proof.
  intros Hok Hax Hp l.
  pose proof (get_axis_num_bound dimension Hok Hax) as Hlt.
  destruct Hok as [Hwf Hdims].
  split; [|split; [|split]].
  - rewrite lane_at_is_last by assumption. apply is_last_lane_mark_first.
  - intros kw Hkw Hl. unfold first_. rewrite run_reducer_plain by exact Hkw. rewrite Hax.
    destruct (@first_f_total (values x) axis Hwf Hlt kw []) as [cells Ec].
    + destruct (extent (shape (values x)) axis) eqn:En; [|lia].
      exfalso. apply Hl. apply length_zero_iff_nil.
      unfold l, lane_at. rewrite lane_length. exact En.
    + rewrite Ec. eexists; reflexivity.
  - intros kw track_types tr out Hrun. unfold first_ in Hrun.
    apply reducer_returns in Hrun.
    destruct Hrun as (axis' & tr0 & cells & Hax' & Hf & Hv & _).
    rewrite Hax in Hax'. inversion Hax'; subst axis'. rewrite Hv.
    destruct (@first_f_at (values x) axis Hwf Hlt (other_options kw) [] tr0 cells p Hf Hp)
      as [_ Hat].
    fold l in Hat.
    destruct l as [|c l'] eqn:El; [discriminate|].
    rewrite first_lane_first_finite in Hat by discriminate.
    inversion Hat. reflexivity.
  - intros t kw Hkw. unfold first_. rewrite run_reducer_plain by exact Hkw. reflexivity.
Qed.

Lemma first_returns_first_finite_witness :
  exists out,
    run (first_ false (fun _ _ _ => None)
                (vector "time" None [NaN; Fin 2; NaN; Fin 5]) "time" false [])
    = ([], Ok out).
Proof.
  refine (proj1 (proj2
    (@first_returns_first_finite false (fun _ _ _ => None)
       (vector "time" None [NaN; Fin 2; NaN; Fin 5]) "time"%string 0 0 _ _ _)) [] _ _).
  - split; reflexivity.
  - reflexivity.
  - vm_compute. lia.
  - reflexivity.
  - discriminate.
Defined.

End FirstFacts.

(** ** [last_] *)

Module LastFacts.
Import BodyFacts.

(** The call [first_(np.flip(x, axis = axis), axis = axis)] made by the
    inner function of [last_] leaves the parameter [dimension] of [first_]
    without a value. *)
Lemma first_call_missing_dimension
    (keep_attrs : bool) (templates : string -> template)
    (a : ndarray cell) (axis : nat) (tr : list event) :
  first_call keep_attrs templates [PyNdarray a] [("axis"%string, PyInt axis)] tr
  = (tr, Raise TypeError).
Proof. reflexivity. Qed.

Lemma last_f_raises
    (keep_attrs : bool) (templates : string -> template)
    (x : ndarray cell) (axis : nat) (kw : kwargs) (tr : list event) :
  last_f keep_attrs templates x axis kw tr = (tr, Raise TypeError).
Proof. reflexivity. Qed.

(** C2. [last_] never returns an array, whatever the options: every call
    raises, and nothing is promoted.  Called without options of [reduce]
    on an existing dimension it raises [TypeError] before any cell is
    reduced (an unknown dimension raises [ValueError]), so on
    [nodata, 2, nodata, 5] it raises instead of returning 5. *)
Theorem last_raises
    (keep_attrs : bool) (templates : string -> template)
    (x : DataArray cell) (dimension : string) (track_types : bool) :
  (forall kw,
      exists e,
        run (last_ keep_attrs templates x dimension track_types kw) = ([], Raise e)) /\
  (forall kw,
      plain_options kw = true ->
      run (last_ keep_attrs templates x dimension track_types kw)
      = ([], Raise match get_axis_num x dimension with
                   | Ok _ => TypeError
                   | Raise e => e
                   end)) /\
  (forall t,
      run (last_ keep_attrs templates
                 (vector "time" t [NaN; Fin 2; NaN; Fin 5]) "time" track_types [])
      = ([], Raise TypeError)).
Proof.
  split; [|split].
  - intros kw. unfold last_. apply reducer_raises.
    intros a axis kw' tr. exists TypeError. reflexivity.
  - intros kw Hkw. unfold last_. rewrite run_reducer_plain by exact Hkw.
    destruct (get_axis_num x dimension); reflexivity.
  - intros t. unfold last_. rewrite run_reducer_plain by reflexivity. reflexivity.
Qed.

Lemma last_raises_witness :
  run (last_ false (fun _ _ _ => None)
             (vector "time" None [NaN; Fin 2; NaN; Fin 5]) "time" true
             [("skipna"%string, PyBool true)])
  = ([], Raise TypeError).
Proof.
  refine (proj1 (proj2
    (@last_raises false (fun _ _ _ => None)
       (vector "time" None [NaN; Fin 2; NaN; Fin 5]) "time"%string true)) _ _).
  reflexivity.
Defined.

End LastFacts.

(** ** [any_] *)

Module AnyFacts.
Import ListFacts LayoutFacts ArrayFacts BodyFacts Lanewise.

Lemma truthy_nodata_as_zero (c : cell) :
  truthy (nan_to_num (Fin 0) (Fin 0) (Fin 0) c) = isfinite c && truthy c.
Proof. destruct c; reflexivity. Qed.

Lemma any_value_lane_iff (l : list cell) :
  any_value_lane l = true <->
  exists c, In c l /\ isfinite c = true /\ truthy c = true.
Proof.
  unfold any_value_lane, any_lane, nodata_as_zero_lane.
  rewrite existsb_exists. split.
  - intros (z & Hin & Hz). apply in_map_iff in Hin. destruct Hin as (c & <- & Hc).
    rewrite truthy_nodata_as_zero in Hz. apply andb_true_iff in Hz.
    exists c. tauto.
  - intros (c & Hc & Hf & Ht).
    exists (nan_to_num (Fin 0) (Fin 0) (Fin 0) c). split.
    + apply in_map. exact Hc.
    + rewrite truthy_nodata_as_zero, Hf, Ht. reflexivity.
Qed.

Lemma any_f_at (x : ndarray cell) (axis p : nat) (kw : kwargs)
      (tr0 tr : list event) (out : ndarray bool) :
  well_formed x -> axis < length (shape x) -> p < n_lanes (shape x) axis ->
  any_f x axis kw tr0 = (tr, Ok out) ->
  nth p (data out) false = any_value_lane (lane_at x axis p).
Proof.
  intros Hwf Hax Hp H. unfold any_f, ret in H. inversion H; subst.
  unfold np_any. rewrite nth_reduce_axis by exact Hp.
  rewrite nodata_as_zero_at by assumption. reflexivity.
Qed.

(** C1 at the failing input: a slice that is entirely no-data gives
    [false] under [any_], not no-data.  Called without options of
    [reduce], the reducer returns the array holding [false]; and under any
    options, whatever it returns holds [false]. *)
Theorem any_of_all_nodata_is_false
    (keep_attrs : bool) (templates : string -> template)
    (t : option value_type) :
  (forall kw,
      plain_options kw = true ->
      run (any_ keep_attrs templates (vector "time" t [NaN; NaN]) "time" false kw)
      = ([], Ok {| dims := [];
                   values := {| shape := []; data := [false] |};
                   vtype := if keep_attrs then t else None |})) /\
  (forall kw track_types tr out,
      run (any_ keep_attrs templates (vector "time" t [NaN; NaN]) "time" track_types kw)
      = (tr, Ok out) ->
      data (values out) = [false]).
Proof.
  split.
  - intros kw Hkw. unfold any_. rewrite run_reducer_plain by exact Hkw. reflexivity.
  - intros kw track_types tr out Hrun. unfold any_ in Hrun.
    apply reducer_returns in Hrun.
    destruct Hrun as (axis & tr0 & cells & Hax & Hf & Hv & _).
    rewrite Hv. inversion Hax; subst axis.
    unfold any_f, ret in Hf. inversion Hf. reflexivity.
Qed.

Lemma any_of_all_nodata_is_false_witness :
  run (any_ false (fun _ _ _ => None) (vector "time" None [NaN; NaN]) "time" false [])
  = ([], Ok {| dims := [];
               values := {| shape := []; data := [false] |};
               vtype := None |}).
Proof.
  refine (proj1 (@any_of_all_nodata_is_false false (fun _ _ _ => None) None) [] _).
  reflexivity.
Defined.

(** C6. Called without options of [reduce], [any_] returns; and wherever
    it returns, under any options, the cell at an output position is true
    exactly when the reduced slice has a finite cell that is
    true-equivalent; no-data cells (NaN and the infinities) count as
    false. *)
Theorem any_true_iff_finite_true
    (keep_attrs : bool) (templates : string -> template)
    (x : DataArray cell) (dimension : string) (axis : nat) (p : nat) :
  array_ok x ->
  get_axis_num x dimension = Ok axis ->
  p < n_lanes (shape (values x)) axis ->
  let l := lane_at (values x) axis p in
  (forall kw,
      plain_options kw = true ->
      exists out, run (any_ keep_attrs templates x dimension false kw) = ([], Ok out)) /\
  (forall kw track_types tr out,
      run (any_ keep_attrs templates x dimension track_types kw) = (tr, Ok out) ->
      (nth p (data (values out)) false = true <->
       exists c, In c l /\ isfinite c = true /\ truthy c = true)).
Proof.
  intros Hok Hax Hp l.
  pose proof (get_axis_num_bound dimension Hok Hax) as Hlt.
  destruct Hok as [Hwf _]. split.
  - intros kw Hkw. unfold any_. rewrite run_reducer_plain by exact Hkw. rewrite Hax.
    eexists; reflexivity.
  - intros kw track_types tr out Hrun. unfold any_ in Hrun.
    apply reducer_returns in Hrun.
    destruct Hrun as (axis' & tr0 & cells & Hax' & Hf & Hv & _).
    rewrite Hax in Hax'. inversion Hax'; subst axis'. rewrite Hv.
    rewrite (@any_f_at (values x) axis p (other_options kw) [] tr0 cells Hwf Hlt Hp Hf).
    apply any_value_lane_iff.
Qed.

Lemma any_true_iff_finite_true_witness :
  exists out,
    run (any_ false (fun _ _ _ => None)
              (vector "time" None [NaN; Fin 0; PInf; Fin 3]) "time" false [])
    = ([], Ok out).
Proof.
  refine (proj1
    (@any_true_iff_finite_true false (fun _ _ _ => None)
       (vector "time" None [NaN; Fin 0; PInf; Fin 3]) "time"%string 0 0 _ _ _) [] _).
  - split; reflexivity.
  - reflexivity.
  - vm_compute. lia.
  - reflexivity.
Defined.

End AnyFacts.

(** ** Rounding to float64 *)

Module FloatFacts.
Local Open Scope Z_scope.

Lemma round_half_even_bounds (N D K : Z) :
  0 < D -> 0 <= N -> N <= K * D ->
  0 <= round_half_even N D <= K.
Proof.
  intros HD HN HK. unfold round_half_even.
  pose proof (Z.div_mod N D ltac:(lia)) as Hdm.
  pose proof (Z.mod_pos_bound N D HD) as Hr.
  assert (0 <= N / D) as Hk0 by (apply Z.div_pos; lia).
  assert (N / D <= K) as HkK.
  { apply Z.div_le_upper_bound; lia. }
  destruct (Z.ltb_spec (2 * (N mod D)) D) as [H1|H1]; [lia|].
  assert (N / D < K) as Hlt.
  { destruct (Z.eq_dec (N / D) K) as [E|E]; [|lia].
    rewrite E in Hdm. nia. }
  destruct (Z.ltb_spec D (2 * (N mod D))); [lia|].
  destruct (Z.even (N / D)); lia.
Qed.

Lemma floor_log2_upper (n d : positive) (b : Z) :
  0 <= b -> Zpos n < 2 ^ b * Zpos d -> floor_log2 n d < b.
Proof.
  intros Hb Hn. unfold floor_log2.
  set (e0 := Z.log2 (Zpos n) - Z.log2 (Zpos d)).
  pose proof (Z.log2_spec (Zpos n) ltac:(lia)) as [Hn1 Hn2].
  pose proof (Z.log2_spec (Zpos d) ltac:(lia)) as [Hd1 Hd2].
  pose proof (Z.log2_nonneg (Zpos n)) as Hln.
  pose proof (Z.log2_nonneg (Zpos d)) as Hld.
  assert (e0 - 1 < b) as Hweak.
  { assert (2 ^ Z.log2 (Zpos n) < 2 ^ (b + (Z.log2 (Zpos d) + 1))) as Hpow.
    { rewrite Z.pow_add_r by lia.
      assert (0 < 2 ^ b) by (apply Z.pow_pos_nonneg; lia). nia. }
    apply Z.pow_lt_mono_r_iff in Hpow; lia. }
  destruct (Z.leb_spec (Zpos d * 2 ^ Z.max 0 e0) (Zpos n * 2 ^ Z.max 0 (- e0))) as [Ht|Ht];
    [|exact Hweak].
  destruct (Z.lt_ge_cases e0 b) as [|Hge]; [assumption|exfalso].
  assert (0 <= e0) by lia.
  rewrite Z.max_r in Ht by lia. rewrite Z.max_l in Ht by lia.
  rewrite Z.pow_0_r, Z.mul_1_r in Ht.
  assert (2 ^ b <= 2 ^ e0) by (apply Z.pow_le_mono_r; lia).
  nia.
Qed.

Lemma round64_pos_within (n d : positive) (K : Z) :
  Zpos n <= K * Zpos d -> K < 2 ^ 53 ->
  exists r, round64_pos n d = Fin r /\ (0 <= r)%Q /\ (r <= inject_Z K)%Q.
Proof.
  intros Hn HK.
  assert (0 < K) as HK0 by nia.
  assert (floor_log2 n d < 53) as He.
  { apply floor_log2_upper; [lia|]. nia. }
  unfold round64_pos.
  set (e := floor_log2 n d) in *.
  set (ex := Z.max (e - 52) (-1074)).
  assert (ex <= 0) as Hex by lia.
  rewrite (Z.max_l 0 ex) by lia. rewrite (Z.max_r 0 (- ex)) by lia.
  rewrite Z.pow_0_r, !Z.mul_1_r.
  set (P := 2 ^ (- ex)).
  assert (0 < P) as HP by (apply Z.pow_pos_nonneg; lia).
  pose proof (@round_half_even_bounds (Zpos n * P) (Zpos d) (K * P)
                ltac:(lia) ltac:(nia) ltac:(nia)) as [Hm0 HmK].
  set (m := round_half_even (Zpos n * P) (Zpos d)) in *.
  assert ((0 <=? ex) && (2 ^ 1024 <=? m * 2 ^ ex) = false) as Hov.
  { destruct (Z.leb_spec 0 ex); [|reflexivity]. simpl.
    assert (ex = 0) as E0 by lia. rewrite E0. rewrite Z.pow_0_r, Z.mul_1_r.
    apply Z.leb_gt. subst P. rewrite E0 in HmK. simpl in HmK.
    assert (2 ^ 53 < 2 ^ 1024) by (apply Z.pow_lt_mono_r; lia). lia. }
  rewrite Hov. eexists. split; [reflexivity|].
  split.
  - rewrite Qred_correct. unfold Qle. simpl. lia.
  - rewrite Qred_correct. unfold Qle, inject_Z. cbn [Qnum Qden].
    rewrite Z2Pos.id by exact HP. lia.
Qed.

(** Rounding keeps a value between 0 and an integer below [2^53] between
    them: both bounds are float64 numbers. *)
Lemma round64_within (q : Q) (K : Z) :
  (0 <= q)%Q -> (q <= inject_Z K)%Q -> K < 2 ^ 53 ->
  exists r, round64 q = Fin r /\ (0 <= r)%Q /\ (r <= inject_Z K)%Q.
Proof.
  intros Hq0 HqK HK. unfold round64.
  destruct q as [num den]. unfold Qle in Hq0, HqK. cbn [Qnum Qden inject_Z] in *.
  destruct num as [|n|n]; [| |lia].
  - exists 0%Q. split; [reflexivity|]. split; [apply Qle_refl|].
    unfold Qle. simpl. lia.
  - apply round64_pos_within; [lia|exact HK].
Qed.

End FloatFacts.

(** ** [count_] and [percentage_] *)

Module CountFacts.
Import ListFacts LayoutFacts ArrayFacts BodyFacts Lanewise AnyFacts.

Lemma fold_add_shift (l : list nat) (a : nat) :
  fold_left Nat.add l a = a + fold_left Nat.add l 0.
Proof.
  revert a. induction l as [|n l IH]; intros a; simpl; [lia|].
  rewrite (IH (a + n)), (IH n). lia.
Qed.

Lemma sum_bool_finite_count (l : list cell) :
  sum_bool (map isfinite l) = finite_count l.
Proof.
  unfold sum_bool, sum_nat, finite_count.
  induction l as [|c l IH]; simpl; [reflexivity|].
  rewrite fold_add_shift, IH. destruct (isfinite c); reflexivity.
Qed.

Lemma finite_count_pos (l : list cell) :
  existsb isfinite l = true -> 0 < finite_count l.
Proof.
  unfold finite_count. induction l as [|c l IH]; simpl; [discriminate|].
  destruct (isfinite c); simpl; [lia|exact IH].
Qed.

Lemma finite_count_zero (l : list cell) :
  existsb isfinite l = false -> finite_count l = 0.
Proof.
  unfold finite_count. induction l as [|c l IH]; simpl; [reflexivity|].
  destruct (isfinite c); simpl; [discriminate|exact IH].
Qed.

Lemma is_all_nodata_lane_existsb (l : list cell) :
  is_all_nodata_lane l = negb (existsb isfinite l).
Proof.
  unfold is_all_nodata_lane. rewrite sum_bool_finite_count.
  destruct (existsb isfinite l) eqn:E; simpl.
  - apply Nat.eqb_neq. apply finite_count_pos in E. lia.
  - apply Nat.eqb_eq. apply finite_count_zero. exact E.
Qed.

Lemma count_nonzero_true_count (l : list cell) :
  count_nonzero_lane (nodata_as_zero_lane l) = true_count l.
Proof.
  unfold count_nonzero_lane, nodata_as_zero_lane, true_count.
  induction l as [|c l IH]; simpl; [reflexivity|].
  rewrite truthy_nodata_as_zero.
  destruct (isfinite c && truthy c); simpl; rewrite IH; reflexivity.
Qed.

Lemma nth_np_binary {A B C} {dA : Default A} {dB : Default B}
      (g : A -> B -> C) (a : ndarray A) (b : operand B) (p : nat) (d : C) :
  p < length (data a) ->
  nth p (data (np_binary g a b)) d = g (nth p (data a) dflt) (operand_at b p).
Proof.
  intros Hp. unfold np_binary. cbn [data].
  rewrite (nth_map_in _ _ (dflt, 0) d)
    by (rewrite length_combine, length_seq; lia).
  rewrite combine_nth by (rewrite length_seq; reflexivity).
  rewrite seq_nth by exact Hp. reflexivity.
Qed.

Section At.
Variable x : ndarray cell.
Variable axis p : nat.
Hypothesis Hwf : well_formed x.
Hypothesis Hax : axis < length (shape x).
Hypothesis Hp : p < n_lanes (shape x) axis.

Lemma counted_at :
  nth p (data (astype_float_of_int (np_count_nonzero (_nodata_as_zero x) axis))) NaN
  = float_of_nat (count_nonzero_lane (nodata_as_zero_lane (lane_at x axis p))).
Proof.
  unfold astype_float_of_int, np_count_nonzero. cbn [elementwise data].
  rewrite (nth_map_in _ _ 0 NaN)
    by (cbn [reduce_axis data]; rewrite length_map, lanes_length; exact Hp).
  rewrite nth_reduce_axis by exact Hp.
  rewrite nodata_as_zero_at by assumption. reflexivity.
Qed.

Lemma count_f_at (kw : kwargs) (tr0 tr : list event) (out : ndarray cell) :
  count_f x axis kw tr0 = (tr, Ok out) ->
  nth p (data out) NaN = count_lane (lane_at x axis p).
Proof.
  unfold count_f, ret. intros H. inversion H; subst.
  rewrite guarded_at by assumption. rewrite counted_at. reflexivity.
Qed.

Lemma percentage_f_at (kw : kwargs) (tr0 tr : list event) (out : ndarray cell) :
  percentage_f x axis kw tr0 = (tr, Ok out) ->
  nth p (data out) NaN = percentage_lane (lane_at x axis p).
Proof.
  unfold percentage_f, ret. intros H. inversion H; subst. clear H.
  unfold np_multiply, np_divide.
  assert (Hlen : length (data (np_where (_is_all_nodata x axis) (Sc NaN)
                    (Arr (astype_float_of_int
                            (np_count_nonzero (_nodata_as_zero x) axis)))))
                 = n_lanes (shape x) axis).
  { unfold np_where. cbn [data]. rewrite length_map, length_seq.
    apply is_all_nodata_length. }
  rewrite nth_np_binary.
  2:{ unfold np_binary at 1. cbn [data].
      rewrite length_map, length_combine, length_seq, Hlen. lia. }
  rewrite nth_np_binary by (rewrite Hlen; exact Hp).
  change (@dflt cell _) with NaN. cbn [operand_at].
  rewrite guarded_at by assumption. rewrite counted_at.
  unfold astype_float_of_int, np_sum_bool, np_isfinite. cbn [elementwise data].
  change (@dflt cell _) with NaN.
  rewrite (nth_map_in _ _ 0 NaN)
    by (cbn [reduce_axis data]; rewrite length_map, lanes_length; exact Hp).
  rewrite (@nth_reduce_axis bool _ nat sum_bool _ axis p 0) by exact Hp.
  rewrite (lane_at_elementwise Hwf Hax Hp).
  reflexivity.
Qed.
End At.

Lemma float_of_nat_nonzero (n : nat) :
  0 < n -> Qeq_bool (inject_Z (Z.of_nat n)) 0 = false.
Proof.
  intros Hn. destruct (Qeq_bool (inject_Z (Z.of_nat n)) 0) eqn:E; [|reflexivity].
  apply Qeq_bool_eq in E. unfold Qeq in E. simpl in E. lia.
Qed.

Lemma percentage_lane_value (l : list cell) :
  existsb isfinite l = true ->
  percentage_lane l
  = cmul (cdiv (float_of_nat (true_count l)) (float_of_nat (finite_count l))) (Fin 100).
Proof.
  intros Hl. unfold percentage_lane, count_lane, guarded.
  rewrite is_all_nodata_lane_existsb, Hl. cbn [negb].
  rewrite count_nonzero_true_count, sum_bool_finite_count. reflexivity.
Qed.

Lemma true_count_le_finite_count (l : list cell) :
  true_count l <= finite_count l.
Proof.
  unfold true_count, finite_count.
  induction l as [|c l IH]; simpl; [lia|].
  destruct (isfinite c); simpl; [|exact IH].
  destruct (truthy c); simpl; lia.
Qed.

(** A rounded share of a whole lies between 0 and 1, and the rounded
    percentage between 0 and 100. *)
Lemma percentage_lane_within (l : list cell) :
  existsb isfinite l = true ->
  exists q, percentage_lane l = Fin q /\ (0 <= q)%Q /\ (q <= 100)%Q.
Proof.
  intros Hl. rewrite percentage_lane_value by exact Hl.
  pose proof (finite_count_pos l Hl) as Hpos.
  pose proof (true_count_le_finite_count l) as Hle.
  unfold float_of_nat, cdiv.
  rewrite (float_of_nat_nonzero Hpos).
  destruct (@FloatFacts.round64_within
              (inject_Z (Z.of_nat (true_count l)) / inject_Z (Z.of_nat (finite_count l)))%Q
              1%Z) as (r & Er & Hr0 & Hr1).
  - apply Qle_shift_div_l.
    + unfold Qlt, inject_Z. cbn [Qnum Qden]. lia.
    + unfold Qle, Qmult, inject_Z. cbn [Qnum Qden]. lia.
  - apply Qle_shift_div_r.
    + unfold Qlt, inject_Z. cbn [Qnum Qden]. lia.
    + unfold Qle, Qmult, inject_Z. cbn [Qnum Qden]. lia.
  - reflexivity.
  - rewrite Er. unfold cmul.
    destruct (@FloatFacts.round64_within (r * 100)%Q 100%Z) as (q & Eq & Hq0 & Hq1).
    + apply Qmult_le_0_compat; [exact Hr0|]. unfold Qle. simpl. lia.
    + change (inject_Z 100) with (100%Q). change (inject_Z 1) with (1%Q) in Hr1.
      setoid_replace (100%Q) with (1 * 100)%Q at 2 by ring.
      apply Qmult_le_compat_r; [exact Hr1|]. unfold Qle. simpl. lia.
    + reflexivity.
    + exists q. split; [exact Eq|]. split; assumption.
Qed.

(** C5. For every array and reduction dimension, at every output
    position whose reduced slice has a finite cell: called without options
    of [reduce] the reducer returns; and whatever it returns, under any
    options, holds there the number of true-equivalent finite cells
    divided by the number of finite cells, times 100, in float64
    arithmetic (the quotient is rounded, and so is the product), a finite
    value from 0 to 100.  On [true, true, false, nodata] that is
    [(2 / 3) * 100], which in float64 is
    2345624805922133 / 2^45 = 66.66666666666666. *)
Theorem percentage_is_true_over_finite
    (keep_attrs : bool) (templates : string -> template)
    (x : DataArray cell) (dimension : string) (axis : nat) (p : nat) :
  array_ok x ->
  get_axis_num x dimension = Ok axis ->
  p < n_lanes (shape (values x)) axis ->
  let l := lane_at (values x) axis p in
  existsb isfinite l = true ->
  (forall kw,
      plain_options kw = true ->
      exists out,
        run (percentage_ keep_attrs templates x dimension false kw) = ([], Ok out)) /\
  (forall kw track_types tr out,
      run (percentage_ keep_attrs templates x dimension track_types kw) = (tr, Ok out) ->
      nth p (data (values out)) NaN
      = cmul (cdiv (float_of_nat (true_count l)) (float_of_nat (finite_count l)))
             (Fin 100) /\
      exists q, nth p (data (values out)) NaN = Fin q /\ (0 <= q)%Q /\ (q <= 100)%Q) /\
  (forall t kw,
      plain_options kw = true ->
      run (percentage_ keep_attrs templates
                       (vector "time" t [Fin 1; Fin 1; Fin 0; NaN]) "time" false kw)
      = ([], Ok {| dims := [];
                   values := {| shape := [];
                                data := [Fin (2345624805922133 # 35184372088832)] |};
                   vtype := if keep_attrs then t else None |})) /\
  (66.666 < 2345624805922133 # 35184372088832)%Q /\
  (2345624805922133 # 35184372088832 < 66.667)%Q.
Proof.
  intros Hok Hax Hp l Hl.
  pose proof (get_axis_num_bound dimension Hok Hax) as Hlt.
  destruct Hok as [Hwf _]. split; [|split; [|split; [|split]]].
  - intros kw Hkw. unfold percentage_. rewrite run_reducer_plain by exact Hkw.
    rewrite Hax. eexists; reflexivity.
  - intros kw track_types tr out Hrun. unfold percentage_ in Hrun.
    apply reducer_returns in Hrun.
    destruct Hrun as (axis' & tr0 & cells & Hax' & Hf & Hv & _).
    rewrite Hax in Hax'. inversion Hax'; subst axis'. rewrite Hv.
    rewrite (@percentage_f_at (values x) axis p Hwf Hlt Hp (other_options kw) [] tr0 cells Hf).
    fold l. split.
    + apply percentage_lane_value. exact Hl.
    + apply percentage_lane_within. exact Hl.
  - intros t kw Hkw. unfold percentage_. rewrite run_reducer_plain by exact Hkw.
    vm_compute. reflexivity.
  - reflexivity.
  - reflexivity.
Qed.

Lemma percentage_is_true_over_finite_witness :
  exists out,
    run (percentage_ false (fun _ _ _ => None)
                     (vector "time" None [Fin 1; Fin 1; Fin 0; NaN]) "time" false [])
    = ([], Ok out).
Proof.
  refine (proj1
    (@percentage_is_true_over_finite false (fun _ _ _ => None)
       (vector "time" None [Fin 1; Fin 1; Fin 0; NaN]) "time"%string 0 0 _ _ _ _) [] _).
  - split; reflexivity.
  - reflexivity.
  - vm_compute. lia.
  - reflexivity.
  - reflexivity.
Defined.

End CountFacts.

(** ** Infinite cells *)

Module InfinityFacts.
Import ListFacts LayoutFacts ArrayFacts BodyFacts Lanewise AnyFacts CountFacts.

Lemma nodata_as_zero_cells (x : ndarray cell) :
  data (_nodata_as_zero x) = map (fun c => if isfinite c then c else Fin 0) (data x).
Proof.
  unfold _nodata_as_zero, np_nan_to_num. cbn [elementwise data].
  apply map_ext. intros c. destruct c; reflexivity.
Qed.

Lemma nodata_as_zero_infinity (x : ndarray cell) :
  _nodata_as_zero (elementwise infinity_as_nodata x) = _nodata_as_zero x.
Proof.
  unfold _nodata_as_zero, np_nan_to_num, elementwise. cbn [shape data].
  f_equal. rewrite map_map. apply map_ext. intros c. destruct c; reflexivity.
Qed.

Lemma isfinite_infinity (x : ndarray cell) :
  np_isfinite (elementwise infinity_as_nodata x) = np_isfinite x.
Proof.
  unfold np_isfinite, elementwise. cbn [shape data].
  f_equal. rewrite map_map. apply map_ext. intros c. destruct c; reflexivity.
Qed.

Lemma is_all_nodata_infinity (x : ndarray cell) (axis : nat) :
  _is_all_nodata (elementwise infinity_as_nodata x) axis = _is_all_nodata x axis.
Proof. unfold _is_all_nodata. rewrite isfinite_infinity. reflexivity. Qed.

Lemma is_all_nodata_lane_iff (l : list cell) :
  is_all_nodata_lane l = true <-> forall c, In c l -> isfinite c = false.
Proof.
  rewrite is_all_nodata_lane_existsb, negb_true_iff.
  split.
  - intros H c Hc. destruct (isfinite c) eqn:E; [|reflexivity].
    assert (existsb isfinite l = true) by (apply existsb_exists; eauto).
    congruence.
  - intros H. destruct (existsb isfinite l) eqn:E; [|reflexivity].
    apply existsb_exists in E. destruct E as (c & Hc & Hf).
    rewrite (H c Hc) in Hf. discriminate.
Qed.

Lemma reducer_same_cells
    (keep_attrs : bool) (templates : string -> template) {B}
    (f : ndarray cell -> nat -> kwargs -> M (ndarray B)) (family func : string)
    (x : DataArray cell) (g : cell -> cell) :
  (forall a axis kw tr, f (elementwise g a) axis kw tr = f a axis kw tr) ->
  forall dimension track_types kw,
    run (reducer keep_attrs templates f family func x dimension track_types kw)
    = run (reducer keep_attrs templates f family func (map_cells g x)
                   dimension track_types kw).
Proof.
  intros Hf dimension track_types kw. rewrite !run_reducer, !run_xr_reduce.
  change (get_axis_num (map_cells g x) dimension) with (get_axis_num x dimension).
  destruct (call_clashes kw); [reflexivity|].
  destruct (axis_given kw); [reflexivity|].
  destruct (get_axis_num x dimension) as [axis|e]; [|reflexivity].
  change (values (map_cells g x)) with (elementwise g (values x)).
  rewrite Hf. reflexivity.
Qed.

(** What happens to an infinite cell where the claim of C9 fails: [max_]
    keeps it as a value. *)
Lemma max_keeps_infinity :
  ~ treats_infinity_as_nodata (max_ false (fun _ _ _ => None)).
Proof.
  intros H.
  specialize (H (vector "time" None [PInf; Fin 1]) "time"%string false []).
  vm_compute in H. discriminate H.
Qed.

(** C9, amended. The false-coercion helper maps NaN and both infinities
    to 0 and keeps finite cells; the all-no-data predicate is true at a
    position exactly when the reduced slice has no finite cell; [any_],
    [count_] and [percentage_] give the same result when the infinite
    cells are turned into no-data beforehand; and [count_] and
    [percentage_] yield no-data on a slice without any finite cell. *)
Theorem infinity_is_nodata_for_counting
    (keep_attrs : bool) (templates : string -> template) :
  (forall a, data (_nodata_as_zero a)
             = map (fun c => if isfinite c then c else Fin 0) (data a)) /\
  (forall a axis p,
      well_formed a -> axis < length (shape a) -> p < n_lanes (shape a) axis ->
      (nth p (data (_is_all_nodata a axis)) false = true <->
       forall c, In c (lane_at a axis p) -> isfinite c = false)) /\
  treats_infinity_as_nodata (any_ keep_attrs templates) /\
  treats_infinity_as_nodata (count_ keep_attrs templates) /\
  treats_infinity_as_nodata (percentage_ keep_attrs templates) /\
  (forall x dimension axis kw p track_types tr out,
      array_ok x -> get_axis_num x dimension = Ok axis ->
      p < n_lanes (shape (values x)) axis ->
      (forall c, In c (lane_at (values x) axis p) -> isfinite c = false) ->
      (run (count_ keep_attrs templates x dimension track_types kw) = (tr, Ok out) ->
       nth p (data (values out)) NaN = NaN) /\
      (run (percentage_ keep_attrs templates x dimension track_types kw) = (tr, Ok out) ->
       nth p (data (values out)) NaN = NaN)).
Proof.
  split; [exact nodata_as_zero_cells|].
  split.
  { intros a axis p Hwf Hax Hp. rewrite is_all_nodata_at by assumption.
    apply is_all_nodata_lane_iff. }
  split.
  { intros x dimension track_types kw. unfold any_. apply reducer_same_cells.
    intros a axis kw' tr. unfold any_f. rewrite nodata_as_zero_infinity. reflexivity. }
  split.
  { intros x dimension track_types kw. unfold count_. apply reducer_same_cells.
    intros a axis kw' tr. unfold count_f.
    rewrite nodata_as_zero_infinity, is_all_nodata_infinity. reflexivity. }
  split.
  { intros x dimension track_types kw. unfold percentage_. apply reducer_same_cells.
    intros a axis kw' tr. unfold percentage_f.
    rewrite nodata_as_zero_infinity, is_all_nodata_infinity, isfinite_infinity.
    reflexivity. }
  intros x dimension axis kw p track_types tr out Hok Hax Hp Hnone.
  pose proof (get_axis_num_bound dimension Hok Hax) as Hlt.
  destruct Hok as [Hwf _].
  apply is_all_nodata_lane_iff in Hnone.
  split; intros Hrun.
  - unfold count_ in Hrun. apply reducer_returns in Hrun.
    destruct Hrun as (axis' & tr0 & cells & Hax' & Hf & Hv & _).
    rewrite Hax in Hax'. inversion Hax'; subst axis'. rewrite Hv.
    rewrite (@count_f_at (values x) axis p Hwf Hlt Hp (other_options kw) [] tr0 cells Hf).
    unfold count_lane, guarded. rewrite Hnone. reflexivity.
  - unfold percentage_ in Hrun. apply reducer_returns in Hrun.
    destruct Hrun as (axis' & tr0 & cells & Hax' & Hf & Hv & _).
    rewrite Hax in Hax'. inversion Hax'; subst axis'. rewrite Hv.
    rewrite (@percentage_f_at (values x) axis p Hwf Hlt Hp (other_options kw) [] tr0 cells Hf).
    unfold percentage_lane, count_lane, guarded. rewrite Hnone. reflexivity.
Qed.

Lemma infinity_is_nodata_for_counting_witness :
  nth 0 (data (values
           {| dims := [];
              values := {| shape := []; data := [NaN] |};
              vtype := None |})) NaN = NaN.
Proof.
  refine (proj1
    (proj2 (proj2 (proj2 (proj2 (proj2
       (infinity_is_nodata_for_counting false (fun _ _ _ => None))))))
       (vector "time" None [PInf; NaN; NInf]) "time"%string 0 [] 0 false [] _ _ _ _ _) _).
  - split; reflexivity.
  - reflexivity.
  - vm_compute. lia.
  - intros c Hc. vm_compute in Hc.
    destruct Hc as [<-|[<-|[<-|[]]]]; reflexivity.
  - reflexivity.
Defined.

End InfinityFacts.

(** ** [track_types] *)

Module TrackFacts.
Import BodyFacts Lanewise.

Lemma xr_reduce_silent (keep_attrs : bool) {B}
      (f : ndarray cell -> nat -> kwargs -> M (ndarray B))
      (x : DataArray cell) (dimension : string) (kw : kwargs) :
  silent f -> fst (run (xr_reduce keep_attrs f x dimension kw)) = [].
Proof.
  intros Hs. rewrite run_xr_reduce.
  destruct (call_clashes kw); [reflexivity|].
  destruct (axis_given kw); [reflexivity|].
  destruct (get_axis_num x dimension) as [axis|e]; [|reflexivity].
  pose proof (Hs (values x) axis (other_options kw) []) as Htr.
  destruct (f (values x) axis (other_options kw) []) as [tr [cells|e]]; exact Htr.
Qed.

Lemma reducer_contract (keep_attrs : bool) (templates : string -> template) {B}
      (f : ndarray cell -> nat -> kwargs -> M (ndarray B)) (family func : string) :
  silent f ->
  track_types_contract keep_attrs (templates family) f func
    (reducer keep_attrs templates f family func).
Proof.
  intros Hs x dimension kw. cbv zeta.
  pose proof (@xr_reduce_silent keep_attrs B f x dimension kw Hs) as Htr.
  rewrite !run_reducer.
  destruct (run (xr_reduce keep_attrs f x dimension kw)) as [tr [out|e]];
    cbn [fst snd] in *; subst tr; repeat split.
Qed.

Lemma mode_f_silent : silent mode_f.
Proof.
  intros x axis kw tr. unfold mode_f, mbind, lift, ret.
  destruct (squeeze (stats_mode x axis) axis); reflexivity.
Qed.

(** C7. For each of the fifteen reducers: with [track_types = false] the
    call is exactly [x.reduce(f, dim = dimension, **kwargs)] and no
    promotion runs, so the value-type attribute stays as the reduction
    left it; with [track_types = true], once the reduction has returned,
    promotion runs exactly once, on the output and with the template of
    the reducer's family, and the array that comes back is the array
    returned with [track_types = false], with the same cells, shape and
    dimensions, carrying the promoted value type.  For example, [mean_]
    with tracking on an array of value type [numerical], whose template
    gives [continuous], returns the mean with value type [continuous],
    and without tracking the same cells with no value type. *)
Theorem track_types_only_gates_promotion
    (keep_attrs : bool) (templates : string -> template) (sqrt_round : Q -> Q) :
  (track_types_contract keep_attrs (templates "numerical_reducers"%string) mean_f "mean"
     (mean_ keep_attrs templates) /\
   track_types_contract keep_attrs (templates "numerical_reducers"%string) sum_f "sum"
     (sum_ keep_attrs templates) /\
   track_types_contract keep_attrs (templates "numerical_reducers"%string) product_f "product"
     (product_ keep_attrs templates) /\
   track_types_contract keep_attrs (templates "numerical_reducers"%string) variance_f "variance"
     (variance_ keep_attrs templates) /\
   track_types_contract keep_attrs (templates "numerical_reducers"%string)
     (standard_deviation_f sqrt_round) "standard_deviation"
     (standard_deviation_ keep_attrs templates sqrt_round) /\
   track_types_contract keep_attrs (templates "boolean_reducers"%string) all_f "all"
     (all_ keep_attrs templates) /\
   track_types_contract keep_attrs (templates "boolean_reducers"%string) any_f "any"
     (any_ keep_attrs templates) /\
   track_types_contract keep_attrs (templates "count_reducers"%string) count_f "count"
     (count_ keep_attrs templates) /\
   track_types_contract keep_attrs (templates "count_reducers"%string) percentage_f "percentage"
     (percentage_ keep_attrs templates) /\
   track_types_contract keep_attrs (templates "ordered_reducers"%string) max_f "max"
     (max_ keep_attrs templates) /\
   track_types_contract keep_attrs (templates "ordered_reducers"%string) min_f "min"
     (min_ keep_attrs templates) /\
   track_types_contract keep_attrs (templates "ordered_reducers"%string) median_f "median"
     (median_ keep_attrs templates) /\
   track_types_contract keep_attrs (templates "universal_reducers"%string) first_f "first"
     (first_ keep_attrs templates) /\
   track_types_contract keep_attrs (templates "universal_reducers"%string)
     (last_f keep_attrs templates) "last" (last_ keep_attrs templates) /\
   track_types_contract keep_attrs (templates "universal_reducers"%string) mode_f "mode"
     (mode_ keep_attrs templates)) /\
  (let manual : string -> template :=
     fun _ _ _ => Some "continuous"%string in
   let x := vector "time" (Some "numerical"%string) [Fin 1; NaN; Fin 3] in
   run (mean_ false manual x "time" true [])
   = ([PromoteValueType "mean"],
      Ok {| dims := [];
            values := {| shape := []; data := [Fin 2] |};
            vtype := Some "continuous"%string |}) /\
   run (mean_ false manual x "time" false [])
   = ([], Ok {| dims := [];
                values := {| shape := []; data := [Fin 2] |};
                vtype := None |})).
Proof.
  split.
  - repeat match goal with |- _ /\ _ => split end;
      apply reducer_contract;
      first [exact mode_f_silent | intros x axis kw tr; reflexivity].
  - cbv zeta. split; vm_compute; reflexivity.
Qed.

Lemma track_types_only_gates_promotion_witness :
  run (mean_ false (fun _ _ _ => Some "continuous"%string)
             (vector "time" (Some "numerical"%string) [Fin 1; NaN; Fin 3])
             "time" true [("keepdims"%string, PyBool true)])
  = ([PromoteValueType "mean"],
     Ok {| dims := ["time"%string];
           values := {| shape := [1]; data := [Fin 2] |};
           vtype := Some "continuous"%string |}).
Proof.
  pose proof (proj1 (proj1 (track_types_only_gates_promotion
                       false (fun _ _ _ => Some "continuous"%string) (fun q => q)))
                    (vector "time" (Some "numerical"%string) [Fin 1; NaN; Fin 3])
                    "time"%string [("keepdims"%string, PyBool true)]) as H.
  cbv zeta in H. destruct H as (_ & _ & H).
  exact H.
Defined.

End TrackFacts.

(** ** Query recipes *)

Module RecipeFacts.
Import Recipe.

Lemma dict_setitem_fresh {V} (k : string) (v : V) (d : dict V) :
  ~ In k (dict_keys d) -> dict_setitem k v d = d ++ [(k, v)].
Proof.
  induction d as [|[k' v'] d IH]; simpl; intros Hk; [reflexivity|].
  destruct (String.eqb k k') eqn:E.
  - apply String.eqb_eq in E. subst. tauto.
  - rewrite IH by tauto. reflexivity.
Qed.

Lemma dict_update_fresh {V} (obj self : dict V) :
  NoDup (dict_keys (self ++ obj)) -> dict_update self obj = self ++ obj.
Proof.
  revert self. induction obj as [|[k v] obj IH]; intros self Hnd.
  - simpl. rewrite app_nil_r. reflexivity.
  - unfold dict_update in *. cbn [fold_left fst snd].
    assert (Hk : ~ In k (dict_keys self)).
    { unfold dict_keys in *. rewrite map_app in Hnd. cbn [map fst] in Hnd.
      apply NoDup_remove_2 in Hnd. intros Hin. apply Hnd.
      apply in_or_app. left. exact Hin. }
    rewrite (dict_setitem_fresh k v self Hk).
    rewrite IH; rewrite <- app_assoc; [reflexivity|exact Hnd].
Qed.

(** C10. A recipe constructed without results (or with [None]) is empty,
    and a recipe constructed from a dictionary holds exactly the items of
    that dictionary, in the same order, so every name maps to its
    instruction. *)
Theorem init_holds_the_results (Instruction : Type) :
  init (Instruction := Instruction) None = [] /\
  forall results : dict Instruction,
    dict_ok results ->
    init (Some results) = results /\
    forall name, dict_get name (init (Some results)) = dict_get name results.
Proof.
  split; [reflexivity|].
  intros results Hok.
  assert (E : init (Some results) = results).
  { unfold init. rewrite dict_update_fresh; [reflexivity|exact Hok]. }
  split; [exact E|]. intros name. rewrite E. reflexivity.
Qed.

Lemma init_holds_the_results_witness :
  init (Some [("map"%string, 1); ("series"%string, 2)])
  = [("map"%string, 1); ("series"%string, 2)].
Proof.
  refine (proj1 (proj2 (init_holds_the_results nat)
                       [("map"%string, 1); ("series"%string, 2)] _)).
  repeat constructor; simpl; intuition discriminate.
Defined.

Section Execute.
Variables Instruction Datacube Mapping SpatialExtent TemporalExtent : Type.
Variables ConfigValue QueryProcessor Array : Type.
Variable parse :
  QueryRecipe Instruction -> Datacube -> Mapping -> SpatialExtent -> TemporalExtent ->
  config ConfigValue -> result QueryProcessor.
Variable optimize : QueryProcessor -> result QueryProcessor.
Variable qp_execute : QueryProcessor -> result (response Array).

(** C8. [execute] calls [QueryProcessor.parse] on the recipe, the
    datacube, the mapping, the two extents and the configuration options as
    given, then [optimize] on the parsed processor, then [execute] on the
    optimized processor, in this order and nothing else, and returns what
    that last call returns, a dictionary from result names to arrays; a
    phase that raises ends the call with its exception. *)
Theorem execute_runs_three_phases
    (self : QueryRecipe Instruction) (datacube : Datacube) (mapping : Mapping)
    (space : SpatialExtent) (time : TemporalExtent) (options : config ConfigValue) :
  let parsing :
    call Instruction Datacube Mapping SpatialExtent TemporalExtent ConfigValue
         QueryProcessor :=
    CallParse self datacube mapping space time options in
  execute parse optimize qp_execute self datacube mapping space time options []
  = match parse self datacube mapping space time options with
    | Raise e => ([parsing], Raise e)
    | Ok qp =>
        match optimize qp with
        | Raise e => ([parsing; CallOptimize qp], Raise e)
        | Ok optimized =>
            ([parsing; CallOptimize qp; CallExecute optimized],
             qp_execute optimized)
        end
    end
  /\ forall qp optimized answer,
      parse self datacube mapping space time options = Ok qp ->
      optimize qp = Ok optimized ->
      qp_execute optimized = Ok answer ->
      execute parse optimize qp_execute self datacube mapping space time options []
      = ([parsing; CallOptimize qp; CallExecute optimized],
         Ok answer).
Proof.
  intros parsing.
  assert (E : execute parse optimize qp_execute self datacube mapping space time options []
              = match parse self datacube mapping space time options with
                | Raise e => ([parsing], Raise e)
                | Ok qp =>
                    match optimize qp with
                    | Raise e => ([parsing; CallOptimize qp], Raise e)
                    | Ok optimized =>
                        ([parsing; CallOptimize qp;
                          CallExecute optimized],
                         qp_execute optimized)
                    end
                end).
  { unfold execute, tbind, invoke. cbn [app].
    destruct (parse self datacube mapping space time options) as [qp|e]; [|reflexivity].
    cbn [app]. destruct (optimize qp) as [optimized|e]; reflexivity. }
  split; [exact E|].
  intros qp optimized answer Hp Ho He. rewrite E, Hp, Ho, He. reflexivity.
Qed.
End Execute.

Lemma execute_runs_three_phases_witness :
  execute (fun (r : QueryRecipe nat) (_ _ _ _ : unit) (_ : config nat) => Ok (length r))
          (fun qp => Ok (S qp))
          (fun qp => Ok [("count"%string, qp)])
          [("map"%string, 7)] tt tt tt tt [("crs"%string, 3035)] []
  = ([CallParse [("map"%string, 7)] tt tt tt tt [("crs"%string, 3035)];
      CallOptimize 1; CallExecute 2],
     Ok [("count"%string, 2)]).
Proof.
  refine (proj2
    (@execute_runs_three_phases nat unit unit unit unit nat nat nat
       (fun r _ _ _ _ _ => Ok (length r)) (fun qp => Ok (S qp))
       (fun qp => Ok [("count"%string, qp)])
       [("map"%string, 7)] tt tt tt tt [("crs"%string, 3035)]) 1 2 _ _ _ _);
    reflexivity.
Defined.

End RecipeFacts.

(** ** The order of cells *)

Module OrderFacts.

Lemma clt_Fin (p q : Q) : clt (Fin p) (Fin q) = true <-> (p < q)%Q.
Proof.
  cbn [clt]. rewrite negb_true_iff. split.
  - intros H. apply Qnot_le_lt. intros Hle. apply Qle_bool_iff in Hle. congruence.
  - intros H. destruct (Qle_bool q p) eqn:E; [|reflexivity].
    apply Qle_bool_iff in E. lra.
Qed.

Lemma ceq_Fin (p q : Q) : ceq (Fin p) (Fin q) = true <-> (p == q)%Q.
Proof. cbn [ceq]. apply Qeq_bool_iff. Qed.

Lemma clt_Fin_false (p q : Q) : clt (Fin p) (Fin q) = false <-> (q <= p)%Q.
Proof.
  split.
  - intros H. destruct (Qlt_le_dec p q) as [Hlt|Hle]; [|exact Hle].
    apply clt_Fin in Hlt. congruence.
  - intros H. destruct (clt (Fin p) (Fin q)) eqn:E; [|reflexivity].
    apply clt_Fin in E. lra.
Qed.

Ltac cells :=
  repeat match goal with
         | c : cell |- _ => destruct c
         end;
  cbn [isnan]; try reflexivity; try discriminate;
  repeat match goal with
         | H : clt (Fin _) (Fin _) = true |- _ => apply clt_Fin in H
         | H : clt (Fin _) (Fin _) = false |- _ => apply clt_Fin_false in H
         | H : ceq (Fin _) (Fin _) = true |- _ => apply ceq_Fin in H
         | |- clt (Fin _) (Fin _) = true => apply clt_Fin
         | |- clt (Fin _) (Fin _) = false => apply clt_Fin_false
         | |- ceq (Fin _) (Fin _) = true => apply ceq_Fin
         end;
  try lra.




Lemma ceq_not_nan (a b : cell) : ceq a b = true -> isnan a = false /\ isnan b = false.
Proof. intros H. split; cells. Qed.


Lemma clt_irrefl (a : cell) : clt a a = false.
Proof. cells. Qed.



Lemma clt_trans (a b c : cell) : clt a b = true -> clt b c = true -> clt a c = true.
Proof. intros H1 H2. cells. Qed.

Lemma clt_ceq_trans (a b c : cell) : clt a b = true -> ceq b c = true -> clt a c = true.
Proof. intros H1 H2. cells. Qed.

Lemma ceq_clt_trans (a b c : cell) : ceq a b = true -> clt b c = true -> clt a c = true.
Proof. intros H1 H2. cells. Qed.

(** Two cells that are not NaN are comparable. *)
Lemma clt_total (a b : cell) :
  isnan a = false -> isnan b = false ->
  clt a b = false -> clt b a = false -> ceq a b = true.
Proof. intros Ha Hb H1 H2. cells. Qed.

Lemma cle_trans (a b c : cell) :
  isnan a = false -> isnan b = false ->
  clt b a = false -> clt c b = false -> clt c a = false.
Proof.
  intros Ha Hb H1 H2. destruct (clt c a) eqn:E; [|reflexivity].
  destruct (clt a b) eqn:E3.
  - rewrite (clt_trans _ _ _ E E3) in H2. discriminate.
  - pose proof (clt_total _ _ Ha Hb E3 H1) as Heq.
    rewrite (clt_ceq_trans _ _ _ E Heq) in H2. discriminate.
Qed.

End OrderFacts.

(** ** [mode_] *)

Module ModeFacts.
Import ListFacts LayoutFacts ArrayFacts BodyFacts Lanewise OrderFacts CountFacts.


















Lemma kept_axis_has_length_one (sh : list nat) (axis : nat) :
  axis < length sh ->
  nth_error (firstn axis sh ++ 1 :: skipn (S axis) sh) axis = Some 1.
Proof.
  intros H.
  assert (E : length (firstn axis sh) = axis) by (rewrite length_firstn; lia).
  rewrite nth_error_app2 by lia. rewrite E, Nat.sub_diag. reflexivity.
Qed.

(** An array without cells is refused. *)
Lemma mode_f_empty (x : ndarray cell) (axis : nat) (kw : kwargs) (tr : list event) :
  size_of (shape x) = 0 -> mode_f x axis kw tr = (tr, Raise ValueError).
Proof.
  intros H. unfold mode_f, mbind, lift, squeeze, stats_mode. rewrite H.
  cbn [Nat.eqb shape]. destruct axis as [|[|axis]]; reflexivity.
Qed.

Lemma mode_f_at (x : ndarray cell) (axis p : nat) (kw : kwargs) (tr : list event) :
  well_formed x -> axis < length (shape x) -> p < n_lanes (shape x) axis ->
  0 < extent (shape x) axis ->
  exists out,
    mode_f x axis kw tr = (tr, Ok out) /\
    nth p (data out) NaN
    = mode_value_lane (contains_nan (data x)) (lane_at x axis p).
Proof.
  intros Hwf Hax Hp Hn. unfold mode_f, mbind, lift, ret, squeeze.
  assert (Hsize : (size_of (shape x) =? 0) = false).
  { apply Nat.eqb_neq. rewrite (size_of_split _ Hax).
    unfold n_lanes in Hp. destruct (outer (shape x) axis); [lia|].
    destruct (inner (shape x) axis); [lia|]. nia. }
  unfold stats_mode. rewrite Hsize. cbn [reduce_axis_keepdims shape].
  rewrite kept_axis_has_length_one by exact Hax.
  eexists. split; [reflexivity|].
  rewrite guarded_at by assumption.
  unfold mode_value_lane. f_equal. cbn [reduce_axis_keepdims data].
  rewrite (nth_map_in (mode_lane (contains_nan (data x))) (lanes x axis) [] NaN)
    by (rewrite lanes_length; exact Hp).
  rewrite nth_lanes by exact Hp. reflexivity.
Qed.





End ModeFacts.

(** ** Slices that are entirely no-data *)

Module MissingFacts.
Import ListFacts LayoutFacts ArrayFacts BodyFacts Lanewise FirstFacts CountFacts.

Section Lane.
Variable l : list cell.
Hypothesis Hl : forall c, In c l -> c = NaN.

Lemma missing_no_finite : existsb isfinite l = false.
Proof.
  destruct (existsb isfinite l) eqn:E; [|reflexivity].
  apply existsb_exists in E. destruct E as (c & Hc & Hf).
  rewrite (Hl c Hc) in Hf. discriminate.
Qed.

Lemma missing_guarded (v : cell) : guarded l v = NaN.
Proof.
  unfold guarded. rewrite is_all_nodata_lane_existsb, missing_no_finite. reflexivity.
Qed.

Lemma missing_filter : filter (fun c => negb (isnan c)) l = [].
Proof.
  induction l as [|c l' IH]; [reflexivity|].
  simpl. rewrite (Hl c (or_introl eq_refl)). simpl.
  apply IH. intros d Hd. apply Hl. right. exact Hd.
Qed.

Lemma missing_sum_zero : sum_cells (map (replace_nan (Fin 0)) l) = Fin 0.
Proof.
  unfold sum_cells.
  assert (G : forall l', (forall c, In c l' -> c = NaN) ->
                         fold_left cadd (map (replace_nan (Fin 0)) l') (Fin 0) = Fin 0).
  { induction l' as [|c l' IH]; intros H; [reflexivity|].
    simpl. rewrite (H c (or_introl eq_refl)). simpl.
    apply IH. intros d Hd. apply H. right. exact Hd. }
  apply G. exact Hl.
Qed.

Lemma missing_mean : nanmean_lane l = NaN.
Proof.
  unfold nanmean_lane, count_not_nan.
  rewrite missing_sum_zero, missing_filter. reflexivity.
Qed.

Lemma missing_var : nanvar_lane l = NaN.
Proof. unfold nanvar_lane, count_not_nan. rewrite missing_filter. reflexivity. Qed.

Lemma missing_std (sqrt_round : Q -> Q) : nanstd_lane sqrt_round l = NaN.
Proof. unfold nanstd_lane. rewrite missing_var. reflexivity. Qed.

Lemma missing_median : nanmedian_lane l = NaN.
Proof. unfold nanmedian_lane. rewrite missing_filter. reflexivity. Qed.

Lemma missing_fold (g : cell -> cell -> cell) :
  g NaN NaN = NaN -> fold_left g l NaN = NaN.
Proof.
  intros Hg.
  assert (G : forall l', (forall c, In c l' -> c = NaN) -> fold_left g l' NaN = NaN).
  { induction l' as [|c l' IH]; intros H; [reflexivity|].
    simpl. rewrite (H c (or_introl eq_refl)), Hg.
    apply IH. intros d Hd. apply H. right. exact Hd. }
  apply G. exact Hl.
Qed.
End Lane.

Lemma missing_extreme (g : cell -> cell -> cell) (l : list cell) (v : cell) :
  g NaN NaN = NaN -> (forall c, In c l -> c = NaN) ->
  match l with [] => Raise ValueError | c :: l' => Ok (fold_left g l' c) end = Ok v ->
  v = NaN.
Proof.
  intros Hg Hl H. destruct l as [|c l']; [discriminate|].
  inversion H. rewrite (Hl c (or_introl eq_refl)).
  apply missing_fold; [|exact Hg]. intros d Hd. apply Hl. right. exact Hd.
Qed.

Lemma missing_first (l : list cell) (v : cell) :
  (forall c, In c l -> c = NaN) -> first_lane l = Ok v -> v = NaN.
Proof.
  intros Hl H. destruct l as [|c l'] eqn:El; [discriminate|].
  rewrite first_lane_first_finite in H by discriminate.
  inversion H. unfold first_finite.
  destruct (find isfinite (c :: l')) as [w|] eqn:Ef; [|reflexivity].
  apply find_some in Ef. destruct Ef as [Hw Hf].
  rewrite (Hl w Hw) in Hf. discriminate.
Qed.

(** Reducers of the form [np.f(x, axis = axis)]. *)
Lemma plain_keeps_missing
    (keep_attrs : bool) (templates : string -> template)
    (g : list cell -> cell) (family func : string) :
  (forall l, (forall c, In c l -> c = NaN) -> g l = NaN) ->
  keeps_missing_slices
    (reducer keep_attrs templates
             (fun x axis (_ : kwargs) => ret (reduce_axis g x axis)) family func).
Proof.
  intros Hg x dimension axis kw p track_types tr out Hok Hax Hp Hl Hrun.
  apply reducer_returns in Hrun.
  destruct Hrun as (axis' & tr0 & cells & Hax' & Hf & Hv & _).
  rewrite Hax in Hax'. inversion Hax'; subst axis'. rewrite Hv.
  unfold ret in Hf. inversion Hf.
  rewrite nth_reduce_axis by exact Hp. apply Hg. exact Hl.
Qed.

(** Reducers of the form
    [np.where(_is_all_nodata(x, axis), np.nan, values)]. *)
Lemma guarded_keeps_missing
    (keep_attrs : bool) (templates : string -> template)
    (v : ndarray cell -> nat -> ndarray cell) (family func : string) :
  keeps_missing_slices
    (reducer keep_attrs templates
             (fun x axis (_ : kwargs) =>
                ret (np_where (_is_all_nodata x axis) (Sc NaN) (Arr (v x axis))))
             family func).
Proof.
  intros x dimension axis kw p track_types tr out Hok Hax Hp Hl Hrun.
  pose proof (get_axis_num_bound dimension Hok Hax) as Hlt.
  destruct Hok as [Hwf _].
  apply reducer_returns in Hrun.
  destruct Hrun as (axis' & tr0 & cells & Hax' & Hf & Hv & _).
  rewrite Hax in Hax'. inversion Hax'; subst axis'. rewrite Hv.
  unfold ret in Hf. inversion Hf.
  rewrite guarded_at by assumption. apply missing_guarded. exact Hl.
Qed.

(** Reducers of the form [np.nanmax(x, axis = axis)]. *)
Lemma extreme_keeps_missing
    (keep_attrs : bool) (templates : string -> template)
    (g : cell -> cell -> cell) (family func : string) :
  g NaN NaN = NaN ->
  keeps_missing_slices
    (reducer keep_attrs templates
             (fun x axis (_ : kwargs) =>
                lift (reduce_axis_r
                        (fun l => match l with
                                  | [] => Raise ValueError
                                  | c :: l' => Ok (fold_left g l' c)
                                  end) x axis))
             family func).
Proof.
  intros Hg x dimension axis kw p track_types tr out Hok Hax Hp Hl Hrun.
  apply reducer_returns in Hrun.
  destruct Hrun as (axis' & tr0 & cells & Hax' & Hf & Hv & _).
  rewrite Hax in Hax'. inversion Hax'; subst axis'. rewrite Hv.
  unfold lift in Hf. inversion Hf as [[Ht Hc]].
  pose proof (@reduce_axis_r_at _ _ _ _ _ _ p _ NaN Hc Hp) as Hat.
  cbv beta in Hat. eapply missing_extreme; eassumption.
Qed.

(** The part of C1 that holds: every reducer except [any_] and [last_]
    keeps a missing slice missing. *)
Theorem thirteen_reducers_keep_missing_slices
    (keep_attrs : bool) (templates : string -> template) (sqrt_round : Q -> Q) :
  keeps_missing_slices (mean_ keep_attrs templates) /\
  keeps_missing_slices (sum_ keep_attrs templates) /\
  keeps_missing_slices (product_ keep_attrs templates) /\
  keeps_missing_slices (variance_ keep_attrs templates) /\
  keeps_missing_slices (standard_deviation_ keep_attrs templates sqrt_round) /\
  keeps_missing_slices (all_ keep_attrs templates) /\
  keeps_missing_slices (count_ keep_attrs templates) /\
  keeps_missing_slices (percentage_ keep_attrs templates) /\
  keeps_missing_slices (max_ keep_attrs templates) /\
  keeps_missing_slices (min_ keep_attrs templates) /\
  keeps_missing_slices (median_ keep_attrs templates) /\
  keeps_missing_slices (first_ keep_attrs templates) /\
  keeps_missing_slices (mode_ keep_attrs templates).
Proof.
  repeat match goal with |- _ /\ _ => split end.
  - apply plain_keeps_missing. exact missing_mean.
  - apply (guarded_keeps_missing keep_attrs templates np_nansum).
  - apply (guarded_keeps_missing keep_attrs templates np_nanprod).
  - apply plain_keeps_missing. exact missing_var.
  - apply plain_keeps_missing. intros l Hl. apply missing_std. exact Hl.
  - apply (guarded_keeps_missing keep_attrs templates
             (fun x axis => astype_float_of_bool (np_all x axis))).
  - apply (guarded_keeps_missing keep_attrs templates
             (fun x axis => astype_float_of_int
                              (np_count_nonzero (_nodata_as_zero x) axis))).
  - intros x dimension axis kw p track_types tr out Hok Hax Hp Hl Hrun.
    pose proof (get_axis_num_bound dimension Hok Hax) as Hlt.
    destruct Hok as [Hwf _].
    unfold percentage_ in Hrun. apply reducer_returns in Hrun.
    destruct Hrun as (axis' & tr0 & cells & Hax' & Hf & Hv & _).
    rewrite Hax in Hax'. inversion Hax'; subst axis'. rewrite Hv.
    rewrite (@percentage_f_at (values x) axis p Hwf Hlt Hp (other_options kw) [] tr0 cells Hf).
    unfold percentage_lane, count_lane. rewrite missing_guarded by exact Hl.
    reflexivity.
  - apply (extreme_keeps_missing keep_attrs templates fmax). reflexivity.
  - apply (extreme_keeps_missing keep_attrs templates fmin). reflexivity.
  - apply plain_keeps_missing. exact missing_median.
  - intros x dimension axis kw p track_types tr out Hok Hax Hp Hl Hrun.
    pose proof (get_axis_num_bound dimension Hok Hax) as Hlt.
    destruct Hok as [Hwf _].
    unfold first_ in Hrun. apply reducer_returns in Hrun.
    destruct Hrun as (axis' & tr0 & cells & Hax' & Hf & Hv & _).
    rewrite Hax in Hax'. inversion Hax'; subst axis'. rewrite Hv.
    destruct (@first_f_at (values x) axis Hwf Hlt (other_options kw) [] tr0 cells p Hf Hp)
      as [_ Hat].
    eapply missing_first; eassumption.
  - intros x dimension axis kw p track_types tr out Hok Hax Hp Hl Hrun.
    pose proof (get_axis_num_bound dimension Hok Hax) as Hlt.
    destruct Hok as [Hwf _].
    unfold mode_ in Hrun. apply reducer_returns in Hrun.
    destruct Hrun as (axis' & tr0 & cells & Hax' & Hf & Hv & _).
    rewrite Hax in Hax'. inversion Hax'; subst axis'. rewrite Hv.
    destruct (Nat.eq_dec (extent (shape (values x)) axis) 0) as [Hext|Hext].
    { rewrite ModeFacts.mode_f_empty in Hf; [discriminate|].
      rewrite (size_of_split _ Hlt), Hext. lia. }
    destruct (@ModeFacts.mode_f_at (values x) axis p (other_options kw) [] Hwf Hlt Hp
                ltac:(lia))
      as (cells' & Ec & Hat).
    rewrite Ec in Hf. inversion Hf; subst cells'. rewrite Hat.
    apply missing_guarded. exact Hl.
Qed.

End MissingFacts.

(** ** Dimensions and shapes *)

Module ShapeFacts.
Import ListFacts LayoutFacts ArrayFacts BodyFacts Lanewise Contracts FirstFacts.

Lemma index_of_none (d : string) (l : list string) :
  ~ In d l -> index_of d l = None.
Proof.
  induction l as [|d' l IH]; simpl; intros H; [reflexivity|].
  destruct (String.eqb d d') eqn:E.
  - apply String.eqb_eq in E. subst. tauto.
  - rewrite IH by tauto. reflexivity.
Qed.

Lemma remove_nth_length {A} (k : nat) (l : list A) :
  k < length l -> S (length (remove_nth k l)) = length l.
Proof.
  revert k. induction l as [|a l IH]; simpl; intros k H; [lia|].
  destruct k as [|k]; [reflexivity|]. simpl. rewrite IH by lia. reflexivity.
Qed.

Lemma drop_axis_length (sh : list nat) (axis : nat) :
  axis < length sh -> S (length (drop_axis sh axis)) = length sh.
Proof.
  intros H. unfold drop_axis.
  rewrite length_app, length_firstn, length_skipn. lia.
Qed.

Lemma reduce_axis_r_shape {A B} {dA : Default A} (g : list A -> result B)
      (x : ndarray A) (axis : nat) (out : ndarray B) :
  reduce_axis_r g x axis = Ok out ->
  shape out = drop_axis (shape x) axis /\
  length (data out) = n_lanes (shape x) axis.
Proof.
  unfold reduce_axis_r. intros H.
  destruct (sequence (map g (lanes x axis))) as [r|] eqn:Er; [|discriminate].
  inversion H; subst out. simpl. split; [reflexivity|].
  destruct (sequence_map_ok _ _ Er) as [Hlen _].
  rewrite Hlen. apply lanes_length.
Qed.

Lemma plain_fills {B} (g : list cell -> B) :
  fills_the_shape (fun x axis (_ : kwargs) => ret (reduce_axis g x axis)).
Proof.
  intros x axis kw tr tr' out H. unfold ret in H. inversion H. simpl.
  split; [reflexivity|]. rewrite length_map. apply lanes_length.
Qed.

Lemma guarded_shape (x v : ndarray cell) (axis : nat) :
  let out := np_where (_is_all_nodata x axis) (Sc NaN) (Arr v) in
  shape out = drop_axis (shape x) axis /\
  length (data out) = n_lanes (shape x) axis.
Proof.
  cbv zeta. unfold np_where. cbn [shape data]. split; [reflexivity|].
  rewrite length_map, length_seq. apply is_all_nodata_length.
Qed.

Lemma guarded_fills (v : ndarray cell -> nat -> ndarray cell) :
  fills_the_shape
    (fun x axis (_ : kwargs) =>
       ret (np_where (_is_all_nodata x axis) (Sc NaN) (Arr (v x axis)))).
Proof.
  intros x axis kw tr tr' out H. unfold ret in H. inversion H.
  apply guarded_shape.
Qed.

Lemma np_binary_shape {A B C} {dB : Default B} (g : A -> B -> C)
      (a : ndarray A) (b : operand B) :
  shape (np_binary g a b) = shape a /\
  length (data (np_binary g a b)) = length (data a).
Proof.
  unfold np_binary. cbn [shape data]. split; [reflexivity|].
  rewrite length_map, length_combine, length_seq. lia.
Qed.

Lemma percentage_fills : fills_the_shape percentage_f.
Proof.
  intros x axis kw tr tr' out H. unfold percentage_f, ret in H. inversion H.
  unfold np_multiply, np_divide.
  destruct (np_binary_shape cmul
              (np_binary cdiv
                 (np_where (_is_all_nodata x axis) (Sc NaN)
                    (Arr (astype_float_of_int (np_count_nonzero (_nodata_as_zero x) axis))))
                 (Arr (astype_float_of_int (np_sum_bool (np_isfinite x) axis))))
              (Sc (Fin 100))) as [S1 L1].
  destruct (np_binary_shape cdiv
              (np_where (_is_all_nodata x axis) (Sc NaN)
                 (Arr (astype_float_of_int (np_count_nonzero (_nodata_as_zero x) axis))))
              (Arr (astype_float_of_int (np_sum_bool (np_isfinite x) axis)))) as [S2 L2].
  destruct (guarded_shape x
              (astype_float_of_int (np_count_nonzero (_nodata_as_zero x) axis)) axis)
    as [S3 L3].
  split; congruence.
Qed.

Lemma first_fills : fills_the_shape first_f.
Proof.
  intros x axis kw tr tr' out H. unfold first_f, lift in H. inversion H as [[Ht Ho]].
  apply reduce_axis_r_shape in Ho. exact Ho.
Qed.

Lemma mode_fills : fills_the_shape mode_f.
Proof.
  intros x axis kw tr tr' out H. unfold mode_f, mbind, lift, ret in H.
  destruct (squeeze (stats_mode x axis) axis) as [v|e]; [|discriminate].
  inversion H. apply guarded_shape.
Qed.

Lemma same_shape_length (a b : list nat) :
  same_shape a b = true -> length a = length b.
Proof.
  revert b. induction a as [|n a IH]; intros [|m b] H; simpl in *;
    try discriminate; [reflexivity|].
  apply andb_true_iff in H. f_equal. apply IH. tauto.
Qed.

Lemma newaxis_drop_axis (sh : list nat) (axis : nat) :
  axis < length sh ->
  firstn axis (drop_axis sh axis) ++ 1 :: skipn axis (drop_axis sh axis)
  = firstn axis sh ++ 1 :: skipn (S axis) sh.
Proof.
  unfold drop_axis. revert axis.
  induction sh as [|n sh IH]; intros axis H; simpl in H; [lia|].
  destruct axis as [|axis]; [reflexivity|].
  cbn [firstn skipn app]. f_equal.
  apply (IH axis). lia.
Qed.

Lemma reducer_drops (keep_attrs : bool) (templates : string -> template) {B}
      (f : ndarray cell -> nat -> kwargs -> M (ndarray B)) (family func : string) :
  fills_the_shape f ->
  drops_the_dimension (reducer keep_attrs templates f family func).
Proof.
  intros Hf x dimension kw track_types tr out Hok Hrun.
  apply reducer_returns in Hrun.
  destruct Hrun as (axis & tr0 & cells & Hax & Hcells & Hdata & kd & ka & Hkd & Hd & Hv).
  pose proof (get_axis_num_bound dimension Hok Hax) as Hlt.
  destruct (Hf _ _ _ _ _ _ Hcells) as [Hsh Hlen].
  destruct Hok as [Hwf Hdims].
  pose proof (@drop_axis_length (shape (values x)) axis Hlt) as Hdrop.
  assert (Hdiff : same_shape (shape cells) (shape (values x)) = false).
  { destruct (same_shape (shape cells) (shape (values x))) eqn:E; [|reflexivity].
    apply same_shape_length in E. rewrite Hsh in E. lia. }
  unfold keepdims_option in Hkd. rewrite Hdiff in Hkd.
  unfold reduced in Hd, Hv. rewrite Hdiff in Hd, Hv.
  exists axis, kd. cbv zeta.
  split; [exact Hax|]. split; [exact Hkd|].
  destruct kd; cbn [dims values] in Hd, Hv.
  - assert (Hshape : shape (values out)
                     = firstn axis (shape (values x)) ++ 1 :: skipn (S axis) (shape (values x))).
    { rewrite Hv. unfold newaxis. cbn [shape]. rewrite Hsh.
      apply newaxis_drop_axis. exact Hlt. }
    split; [exact Hd|]. split; [exact Hshape|].
    split; [rewrite Hdata; exact Hlen|].
    split.
    + unfold well_formed. rewrite Hshape, Hdata, Hlen, size_of_app.
      unfold n_lanes, outer, inner. simpl. lia.
    + rewrite Hd, Hshape, Hdims, length_app, length_firstn. cbn [length].
      rewrite length_skipn. lia.
  - split; [exact Hd|]. split; [rewrite Hv; exact Hsh|].
    split; [rewrite Hdata; exact Hlen|].
    split.
    + unfold well_formed. rewrite Hv, Hlen, Hsh. symmetry. apply size_of_drop_axis.
    + rewrite Hd, Hv, Hsh.
      pose proof (@remove_nth_length _ axis (dims x)) as H1.
      rewrite Hdims in H1. specialize (H1 Hlt). lia.
Qed.

(** X2. Every reducer that returns an array returns a well-formed
    one, holding one cell per reduced slice: its dimensions are those of
    the input without the reduced dimension, in the same order, and its
    shape is the input shape without that axis; under the option
    [keepdims] the dimensions are those of the input and the reduced axis
    has length one. *)
Theorem reducers_drop_the_dimension
    (keep_attrs : bool) (templates : string -> template) (sqrt_round : Q -> Q) :
  drops_the_dimension (mean_ keep_attrs templates) /\
  drops_the_dimension (sum_ keep_attrs templates) /\
  drops_the_dimension (product_ keep_attrs templates) /\
  drops_the_dimension (variance_ keep_attrs templates) /\
  drops_the_dimension (standard_deviation_ keep_attrs templates sqrt_round) /\
  drops_the_dimension (all_ keep_attrs templates) /\
  drops_the_dimension (any_ keep_attrs templates) /\
  drops_the_dimension (count_ keep_attrs templates) /\
  drops_the_dimension (percentage_ keep_attrs templates) /\
  drops_the_dimension (max_ keep_attrs templates) /\
  drops_the_dimension (min_ keep_attrs templates) /\
  drops_the_dimension (median_ keep_attrs templates) /\
  drops_the_dimension (first_ keep_attrs templates) /\
  drops_the_dimension (last_ keep_attrs templates) /\
  drops_the_dimension (mode_ keep_attrs templates).
Proof.
  repeat match goal with |- _ /\ _ => split end; apply reducer_drops.
  - apply plain_fills.
  - apply (guarded_fills np_nansum).
  - apply (guarded_fills np_nanprod).
  - apply plain_fills.
  - apply plain_fills.
  - apply (guarded_fills (fun x axis => astype_float_of_bool (np_all x axis))).
  - intros x axis kw tr tr' out H. unfold any_f, ret in H. inversion H.
    unfold np_any. simpl. split; [reflexivity|].
    rewrite length_map. apply (lanes_length (_nodata_as_zero x) axis).
  - apply (guarded_fills
             (fun x axis => astype_float_of_int
                              (np_count_nonzero (_nodata_as_zero x) axis))).
  - apply percentage_fills.
  - intros x axis kw tr tr' out H. unfold max_f, lift in H. inversion H as [[Ht Ho]].
    apply reduce_axis_r_shape in Ho. exact Ho.
  - intros x axis kw tr tr' out H. unfold min_f, lift in H. inversion H as [[Ht Ho]].
    apply reduce_axis_r_shape in Ho. exact Ho.
  - apply plain_fills.
  - apply first_fills.
  - intros x axis kw tr tr' out H. discriminate H.
  - apply mode_fills.
Qed.

Lemma reducers_drop_the_dimension_witness :
  exists axis keepdims,
    get_axis_num (vector "time" None [Fin 1; NaN; Fin 3]) "time" = Ok axis /\
    keepdims_asked [("keepdims"%string, PyInt 1)] = Ok keepdims /\
    shape (values {| dims := ["time"%string];
                     values := {| shape := [1]; data := [Fin 2] |};
                     vtype := None |})
    = if keepdims then [1] else [].
Proof.
  destruct (proj1 (reducers_drop_the_dimension false (fun _ _ _ => None) (fun q => q))
                  (vector "time" None [Fin 1; NaN; Fin 3]) "time"%string
                  [("keepdims"%string, PyInt 1)] false []
                  {| dims := ["time"%string];
                     values := {| shape := [1]; data := [Fin 2] |};
                     vtype := None |})
    as (axis & kd & Hax & Hkd & _ & Hsh & _).
  - split; reflexivity.
  - vm_compute. reflexivity.
  - exists axis, kd. split; [exact Hax|]. split; [exact Hkd|].
    inversion Hax; subst axis. exact Hsh.
Defined.

Lemma reducer_rejects (keep_attrs : bool) (templates : string -> template) {B}
      (f : ndarray cell -> nat -> kwargs -> M (ndarray B)) (family func : string) :
  rejects_unknown_dimension (reducer keep_attrs templates f family func).
Proof.
  intros x dimension kw track_types Hno.
  rewrite run_reducer, run_xr_reduce. unfold get_axis_num.
  rewrite (index_of_none _ _ Hno). split; intros H.
  - rewrite (binds_cleanly_no_clash _ H).
    destruct (axis_given kw); reflexivity.
  - rewrite H. reflexivity.
Qed.

(** X3. Every reducer, [last_] included, refuses a dimension that the
    array does not have, whatever [track_types] is, and promotes nothing:
    with [ValueError], unless a keyword is named like an argument of
    [x.reduce], which is a [TypeError]. *)
Theorem reducers_reject_unknown_dimension
    (keep_attrs : bool) (templates : string -> template) (sqrt_round : Q -> Q) :
  rejects_unknown_dimension (mean_ keep_attrs templates) /\
  rejects_unknown_dimension (sum_ keep_attrs templates) /\
  rejects_unknown_dimension (product_ keep_attrs templates) /\
  rejects_unknown_dimension (variance_ keep_attrs templates) /\
  rejects_unknown_dimension (standard_deviation_ keep_attrs templates sqrt_round) /\
  rejects_unknown_dimension (all_ keep_attrs templates) /\
  rejects_unknown_dimension (any_ keep_attrs templates) /\
  rejects_unknown_dimension (count_ keep_attrs templates) /\
  rejects_unknown_dimension (percentage_ keep_attrs templates) /\
  rejects_unknown_dimension (max_ keep_attrs templates) /\
  rejects_unknown_dimension (min_ keep_attrs templates) /\
  rejects_unknown_dimension (median_ keep_attrs templates) /\
  rejects_unknown_dimension (first_ keep_attrs templates) /\
  rejects_unknown_dimension (last_ keep_attrs templates) /\
  rejects_unknown_dimension (mode_ keep_attrs templates).
Proof.
  repeat match goal with |- _ /\ _ => split end; apply reducer_rejects.
Qed.

Lemma reducers_reject_unknown_dimension_witness :
  run (count_ false (fun _ _ _ => None)
              (vector "time" None [Fin 1; NaN]) "space" true
              [("keepdims"%string, PyBool true)])
  = ([], Raise ValueError).
Proof.
  refine (proj1 (proj1 (proj2 (proj2 (proj2 (proj2 (proj2 (proj2 (proj2
    (reducers_reject_unknown_dimension false (fun _ _ _ => None) (fun q => q)))))))))
    (vector "time" None [Fin 1; NaN]) "space"%string
    [("keepdims"%string, PyBool true)] true _) _).
  - simpl. intros [H|[]]. discriminate H.
  - reflexivity.
Defined.

(** With output positions to fill and an axis of length zero, the first
    lane is empty. *)
Lemma reduce_axis_r_empty {B} (g : list cell -> result B) (x : ndarray cell) (axis : nat) :
  g [] = Raise ValueError ->
  extent (shape x) axis = 0 -> 0 < n_lanes (shape x) axis ->
  reduce_axis_r g x axis = Raise ValueError.
Proof.
  intros Hg He Hn. unfold reduce_axis_r, lanes.
  destruct (n_lanes (shape x) axis) as [|n]; [lia|].
  cbn [seq map sequence].
  assert (E : lane_at x axis 0 = []).
  { apply length_zero_iff_nil. unfold lane_at. rewrite lane_length. exact He. }
  rewrite E, Hg. reflexivity.
Qed.

Lemma reduce_axis_r_nonempty (g : list cell -> result cell) (x : ndarray cell) (axis : nat) :
  (forall l, l <> [] -> exists v, g l = Ok v) ->
  0 < extent (shape x) axis ->
  exists out, reduce_axis_r g x axis = Ok out.
Proof.
  intros Hg He. apply reduce_axis_r_total. intros p Hp. apply Hg.
  intros E. apply (f_equal (@length _)) in E.
  unfold lane_at in E. rewrite lane_length in E. simpl in E. lia.
Qed.

(** A reducer whose inner function raises [ValueError] raises it, unless
    a keyword collides with an argument first. *)
Lemma reducer_value_error (keep_attrs : bool) (templates : string -> template)
      (f : ndarray cell -> nat -> kwargs -> M (ndarray cell)) (family func : string)
      (x : DataArray cell) (dimension : string) (axis : nat) (kw : kwargs)
      (track_types : bool) :
  get_axis_num x dimension = Ok axis ->
  binds_cleanly kw = true ->
  (forall kw', f (values x) axis kw' [] = ([], Raise ValueError)) ->
  run (reducer keep_attrs templates f family func x dimension track_types kw)
  = ([], Raise ValueError).
Proof.
  intros Hax Hkw Hf.
  rewrite run_reducer, run_xr_reduce, (binds_cleanly_no_clash _ Hkw), Hax, Hf.
  destruct (axis_given kw); reflexivity.
Qed.

(** X4. [max_], [min_] and [first_] cannot reduce an empty dimension:
    when the reduced dimension has length zero and there are output
    positions, they raise [ValueError] and promote nothing, whatever
    [track_types] and the options are; called without options of [reduce]
    on a dimension that is not empty they return. *)
Theorem extremes_need_cells
    (keep_attrs : bool) (templates : string -> template) :
  needs_cells (max_ keep_attrs templates) /\
  needs_cells (min_ keep_attrs templates) /\
  needs_cells (first_ keep_attrs templates).
Proof.
  repeat match goal with |- _ /\ _ => split end;
    intros x dimension axis kw Hok Hax;
    pose proof (get_axis_num_bound dimension Hok Hax) as Hlt;
    destruct Hok as [Hwf _]; split.
  - intros He Hn Hkw track_types. unfold max_.
    apply reducer_value_error with (axis := axis); [exact Hax|exact Hkw|].
    intros kw'. unfold max_f, lift, np_nanmax.
    rewrite reduce_axis_r_empty by (try reflexivity; assumption). reflexivity.
  - intros He Hkw. unfold max_. rewrite run_reducer_plain by exact Hkw. rewrite Hax.
    unfold max_f, lift, np_nanmax.
    destruct (@reduce_axis_r_nonempty nanmax_lane (values x) axis) as [out Eo];
      [|exact He|rewrite Eo; eexists; reflexivity].
    intros [|c l] Hl; [congruence|]. eexists; reflexivity.
  - intros He Hn Hkw track_types. unfold min_.
    apply reducer_value_error with (axis := axis); [exact Hax|exact Hkw|].
    intros kw'. unfold min_f, lift, np_nanmin.
    rewrite reduce_axis_r_empty by (try reflexivity; assumption). reflexivity.
  - intros He Hkw. unfold min_. rewrite run_reducer_plain by exact Hkw. rewrite Hax.
    unfold min_f, lift, np_nanmin.
    destruct (@reduce_axis_r_nonempty nanmin_lane (values x) axis) as [out Eo];
      [|exact He|rewrite Eo; eexists; reflexivity].
    intros [|c l] Hl; [congruence|]. eexists; reflexivity.
  - intros He Hn Hkw track_types. unfold first_.
    apply reducer_value_error with (axis := axis); [exact Hax|exact Hkw|].
    intros kw'. unfold first_f, lift, np_nanmax.
    rewrite reduce_axis_r_empty by (try reflexivity; assumption). reflexivity.
  - intros He Hkw. unfold first_. rewrite run_reducer_plain by exact Hkw. rewrite Hax.
    destruct (@first_f_total (values x) axis Hwf Hlt kw [] He) as [cells Ec].
    rewrite Ec. eexists; reflexivity.
Qed.

Lemma extremes_need_cells_witness :
  run (max_ false (fun _ _ _ => None)
            {| dims := ["time"; "x"]%string;
               values := {| shape := [0; 2]; data := [] |};
               vtype := None |} "time" true [])
  = ([], Raise ValueError).
Proof.
  refine (proj1 (proj1 (extremes_need_cells false (fun _ _ _ => None))
                       {| dims := ["time"; "x"]%string;
                          values := {| shape := [0; 2]; data := [] |};
                          vtype := None |} "time"%string 0 [] _ _) _ _ _ true).
  - split; reflexivity.
  - reflexivity.
  - reflexivity.
  - vm_compute. lia.
  - reflexivity.
Defined.

End ShapeFacts.

(** ** [max_] and [min_] *)

Module ExtremeFacts.
Import ListFacts LayoutFacts ArrayFacts BodyFacts Lanewise Contracts OrderFacts ShapeFacts.

Lemma fmax_picks (a c : cell) :
  (fmax a c = a \/ fmax a c = c) /\
  (isnan a = false -> isnan (fmax a c) = false /\ clt (fmax a c) a = false) /\
  (isnan c = false -> isnan (fmax a c) = false /\ clt (fmax a c) c = false).
Proof.
  destruct a as [| | |p], c as [| | |q].
  16: { unfold fmax. destruct (clt (Fin p) (Fin q)) eqn:E;
        (split; [auto|split; intros Hn; split; try reflexivity; cells]). }
  all: cbn; (split; [auto|split; intros Hn; split;
                     first [reflexivity|discriminate|
                            match goal with
                            | |- negb (Qle_bool ?r ?r) = false =>
                                exact (clt_irrefl (Fin r))
                            end]]).
Qed.

Lemma fmin_picks (a c : cell) :
  (fmin a c = a \/ fmin a c = c) /\
  (isnan a = false -> isnan (fmin a c) = false /\ clt a (fmin a c) = false) /\
  (isnan c = false -> isnan (fmin a c) = false /\ clt c (fmin a c) = false).
Proof.
  destruct a as [| | |p], c as [| | |q].
  16: { unfold fmin. destruct (clt (Fin q) (Fin p)) eqn:E;
        (split; [auto|split; intros Hn; split; try reflexivity; cells]). }
  all: cbn; (split; [auto|split; intros Hn; split;
                     first [reflexivity|discriminate|
                            match goal with
                            | |- negb (Qle_bool ?r ?r) = false =>
                                exact (clt_irrefl (Fin r))
                            end]]).
Qed.

Lemma fold_fmax_largest (l : list cell) (acc : cell) :
  let m := fold_left fmax l acc in
  (m = acc \/ In m l) /\
  (isnan acc = false -> isnan m = false /\ clt m acc = false) /\
  (forall c, In c l -> isnan c = false -> isnan m = false /\ clt m c = false).
Proof.
  revert acc. induction l as [|c l IH]; intros acc; cbn [fold_left].
  - cbv zeta. split; [left; reflexivity|split].
    + intros Ha. split; [exact Ha|apply clt_irrefl].
    + intros c [].
  - destruct (IH (fmax acc c)) as (A & B & C).
    destruct (fmax_picks acc c) as (P1 & P2 & P3).
    cbv zeta. split; [|split].
    + destruct A as [A|A]; [|right; right; exact A].
      rewrite A. destruct P1 as [->| ->]; [left; reflexivity|right; left; reflexivity].
    + intros Ha. destruct (P2 Ha) as [N1 L1]. destruct (B N1) as [N2 L2].
      split; [exact N2|]. apply (cle_trans acc (fmax acc c)); assumption.
    + intros c0 [<-|Hc0] Hn.
      * destruct (P3 Hn) as [N1 L1]. destruct (B N1) as [N2 L2].
        split; [exact N2|]. apply (cle_trans c (fmax acc c)); assumption.
      * apply C; assumption.
Qed.

Lemma fold_fmin_smallest (l : list cell) (acc : cell) :
  let m := fold_left fmin l acc in
  (m = acc \/ In m l) /\
  (isnan acc = false -> isnan m = false /\ clt acc m = false) /\
  (forall c, In c l -> isnan c = false -> isnan m = false /\ clt c m = false).
Proof.
  revert acc. induction l as [|c l IH]; intros acc; cbn [fold_left].
  - cbv zeta. split; [left; reflexivity|split].
    + intros Ha. split; [exact Ha|apply clt_irrefl].
    + intros c [].
  - destruct (IH (fmin acc c)) as (A & B & C).
    destruct (fmin_picks acc c) as (P1 & P2 & P3).
    cbv zeta. split; [|split].
    + destruct A as [A|A]; [|right; right; exact A].
      rewrite A. destruct P1 as [->| ->]; [left; reflexivity|right; left; reflexivity].
    + intros Ha. destruct (P2 Ha) as [N1 L1]. destruct (B N1) as [N2 L2].
      split; [exact N2|].
      apply (cle_trans (fold_left fmin l (fmin acc c)) (fmin acc c)); assumption.
    + intros c0 [<-|Hc0] Hn.
      * destruct (P3 Hn) as [N1 L1]. destruct (B N1) as [N2 L2].
        split; [exact N2|].
        apply (cle_trans (fold_left fmin l (fmin acc c)) (fmin acc c)); assumption.
      * apply C; assumption.
Qed.

(** On a lane with a cell that is not NaN, [np.nanmax] returns such a
    cell of the lane, and no such cell is larger. *)
Lemma nanmax_lane_largest (l : list cell) (m : cell) :
  nanmax_lane l = Ok m ->
  (exists c, In c l /\ isnan c = false) ->
  In m l /\ isnan m = false /\
  forall c, In c l -> isnan c = false -> clt m c = false.
Proof.
  intros H (d & Hd & Hn). destruct l as [|c l]; [discriminate|].
  inversion H as [Hm]. clear H.
  destruct (fold_fmax_largest l c) as (A & B & C). cbv zeta in A, B, C.
  assert (Hnm : isnan (fold_left fmax l c) = false).
  { destruct Hd as [<-|Hd]; [apply B; exact Hn|apply (C d Hd Hn)]. }
  split; [destruct A as [->|A]; [left; reflexivity|right; exact A]|].
  split; [exact Hnm|].
  intros c0 [<-|Hc0] Hn0; [apply B; exact Hn0|apply (C c0 Hc0 Hn0)].
Qed.

Lemma nanmin_lane_smallest (l : list cell) (m : cell) :
  nanmin_lane l = Ok m ->
  (exists c, In c l /\ isnan c = false) ->
  In m l /\ isnan m = false /\
  forall c, In c l -> isnan c = false -> clt c m = false.
Proof.
  intros H (d & Hd & Hn). destruct l as [|c l]; [discriminate|].
  inversion H as [Hm]. clear H.
  destruct (fold_fmin_smallest l c) as (A & B & C). cbv zeta in A, B, C.
  assert (Hnm : isnan (fold_left fmin l c) = false).
  { destruct Hd as [<-|Hd]; [apply B; exact Hn|apply (C d Hd Hn)]. }
  split; [destruct A as [->|A]; [left; reflexivity|right; exact A]|].
  split; [exact Hnm|].
  intros c0 [<-|Hc0] Hn0; [apply B; exact Hn0|apply (C c0 Hc0 Hn0)].
Qed.

Lemma lane_with_cell_nonempty (x : ndarray cell) (axis p : nat) (c : cell) :
  In c (lane_at x axis p) -> 0 < extent (shape x) axis.
Proof.
  intros Hc. destruct (extent (shape x) axis) eqn:E; [|lia].
  assert (El : lane_at x axis p = []).
  { apply length_zero_iff_nil. unfold lane_at. rewrite lane_length. exact E. }
  rewrite El in Hc. destruct Hc.
Qed.

(** X5. Called without options of [reduce], [max_] returns whenever the
    reduced slices are not empty; and under any options, at every output
    position whose slice has a cell that is not NaN the
    result is such a cell of the slice, with no such cell of the slice
    larger; NaN cells are skipped, infinite cells are values. *)
Theorem max_returns_largest
    (keep_attrs : bool) (templates : string -> template)
    (x : DataArray cell) (dimension : string) (axis : nat) (p : nat) :
  array_ok x ->
  get_axis_num x dimension = Ok axis ->
  p < n_lanes (shape (values x)) axis ->
  let l := lane_at (values x) axis p in
  (exists c, In c l /\ isnan c = false) ->
  (forall kw,
      plain_options kw = true ->
      exists out, run (max_ keep_attrs templates x dimension false kw) = ([], Ok out)) /\
  (forall kw track_types tr out,
      run (max_ keep_attrs templates x dimension track_types kw) = (tr, Ok out) ->
      let m := nth p (data (values out)) NaN in
      In m l /\ isnan m = false /\
      forall c, In c l -> isnan c = false -> clt m c = false).
Proof.
  intros Hok Hax Hp l Hl. split.
  - intros kw Hkw. destruct Hl as (c & Hc & _). apply lane_with_cell_nonempty in Hc.
    unfold max_. rewrite run_reducer_plain by exact Hkw. rewrite Hax. unfold max_f, lift, np_nanmax.
    destruct (@reduce_axis_r_nonempty nanmax_lane (values x) axis) as [out Eo];
      [|exact Hc|rewrite Eo; eexists; reflexivity].
    intros [|d l'] Hne; [congruence|]. eexists; reflexivity.
  - intros kw track_types tr out Hrun. unfold max_ in Hrun.
    apply reducer_returns in Hrun.
    destruct Hrun as (axis' & tr0 & cells & Hax' & Hf & Hv & _).
    rewrite Hax in Hax'. inversion Hax'; subst axis'. rewrite Hv.
    unfold max_f, lift in Hf. inversion Hf as [[Ht Hc]].
    pose proof (@reduce_axis_r_at _ _ _ _ _ _ p _ NaN Hc Hp) as Hat.
    cbv zeta. apply nanmax_lane_largest; assumption.
Qed.

Lemma max_returns_largest_witness :
  exists out,
    run (max_ false (fun _ _ _ => None)
              (vector "time" None [Fin 1; NaN; PInf; Fin 3]) "time" false [])
    = ([], Ok out).
Proof.
  refine (proj1
    (@max_returns_largest false (fun _ _ _ => None)
       (vector "time" None [Fin 1; NaN; PInf; Fin 3]) "time"%string 0 0 _ _ _ _) [] _).
  - split; reflexivity.
  - reflexivity.
  - vm_compute. lia.
  - exists (Fin 1). split; [left; reflexivity|reflexivity].
  - reflexivity.
Defined.

(** X6. Called without options of [reduce], [min_] returns whenever the
    reduced slices are not empty; and under any options, at every output
    position whose slice has a cell that is not NaN the
    result is such a cell of the slice, with no such cell of the slice
    smaller. *)
Theorem min_returns_smallest
    (keep_attrs : bool) (templates : string -> template)
    (x : DataArray cell) (dimension : string) (axis : nat) (p : nat) :
  array_ok x ->
  get_axis_num x dimension = Ok axis ->
  p < n_lanes (shape (values x)) axis ->
  let l := lane_at (values x) axis p in
  (exists c, In c l /\ isnan c = false) ->
  (forall kw,
      plain_options kw = true ->
      exists out, run (min_ keep_attrs templates x dimension false kw) = ([], Ok out)) /\
  (forall kw track_types tr out,
      run (min_ keep_attrs templates x dimension track_types kw) = (tr, Ok out) ->
      let m := nth p (data (values out)) NaN in
      In m l /\ isnan m = false /\
      forall c, In c l -> isnan c = false -> clt c m = false).
Proof.
  intros Hok Hax Hp l Hl. split.
  - intros kw Hkw. destruct Hl as (c & Hc & _). apply lane_with_cell_nonempty in Hc.
    unfold min_. rewrite run_reducer_plain by exact Hkw. rewrite Hax. unfold min_f, lift, np_nanmin.
    destruct (@reduce_axis_r_nonempty nanmin_lane (values x) axis) as [out Eo];
      [|exact Hc|rewrite Eo; eexists; reflexivity].
    intros [|d l'] Hne; [congruence|]. eexists; reflexivity.
  - intros kw track_types tr out Hrun. unfold min_ in Hrun.
    apply reducer_returns in Hrun.
    destruct Hrun as (axis' & tr0 & cells & Hax' & Hf & Hv & _).
    rewrite Hax in Hax'. inversion Hax'; subst axis'. rewrite Hv.
    unfold min_f, lift in Hf. inversion Hf as [[Ht Hc]].
    pose proof (@reduce_axis_r_at _ _ _ _ _ _ p _ NaN Hc Hp) as Hat.
    cbv zeta. apply nanmin_lane_smallest; assumption.
Qed.

Lemma min_returns_smallest_witness :
  exists out,
    run (min_ false (fun _ _ _ => None)
              (vector "time" None [Fin 1; NaN; NInf; Fin 3]) "time" false [])
    = ([], Ok out).
Proof.
  refine (proj1
    (@min_returns_smallest false (fun _ _ _ => None)
       (vector "time" None [Fin 1; NaN; NInf; Fin 3]) "time"%string 0 0 _ _ _ _) [] _).
  - split; reflexivity.
  - reflexivity.
  - vm_compute. lia.
  - exists (Fin 1). split; [left; reflexivity|reflexivity].
  - reflexivity.
Defined.

End ExtremeFacts.

(** ** [all_], [any_], [count_] and [percentage_] together *)

Module LogicFacts.
Import ListFacts LayoutFacts ArrayFacts BodyFacts Lanewise Contracts AnyFacts CountFacts.

Lemma finite_count_le_length (l : list cell) : finite_count l <= length l.
Proof. unfold finite_count. apply filter_length_le. Qed.

Lemma any_value_lane_true_count (l : list cell) :
  any_value_lane l = true <-> 0 < true_count l.
Proof.
  rewrite any_value_lane_iff. unfold true_count. split.
  - intros (c & Hc & Hf & Ht).
    assert (Hin : In c (filter (fun c => isfinite c && truthy c) l)).
    { apply filter_In. split; [exact Hc|]. rewrite Hf, Ht. reflexivity. }
    destruct (filter (fun c => isfinite c && truthy c) l); [destruct Hin|simpl; lia].
  - intros H.
    destruct (filter (fun c => isfinite c && truthy c) l) as [|c r] eqn:E;
      [simpl in H; lia|].
    assert (Hin : In c (filter (fun c => isfinite c && truthy c) l))
      by (rewrite E; left; reflexivity).
    apply filter_In in Hin. destruct Hin as [Hc Hb].
    apply andb_true_iff in Hb. exists c. tauto.
Qed.

Lemma float_of_nat_injective (n m : nat) :
  float_of_nat n = float_of_nat m -> n = m.
Proof.
  unfold float_of_nat, inject_Z. intros H. inversion H. lia.
Qed.

Lemma count_lane_value (l : list cell) :
  existsb isfinite l = true -> count_lane l = float_of_nat (true_count l).
Proof.
  intros Hl. unfold count_lane, guarded.
  rewrite is_all_nodata_lane_existsb, Hl, count_nonzero_true_count. reflexivity.
Qed.

Lemma all_lane_iff (l : list cell) :
  all_lane l = true <-> forall c, In c l -> isfinite c = true -> truthy c = true.
Proof.
  unfold all_lane. rewrite forallb_forall. split.
  - intros H c Hc _. apply H. exact Hc.
  - intros H c Hc. destruct (isfinite c) eqn:E; [apply H; assumption|].
    destruct c; try reflexivity. discriminate.
Qed.

Lemma all_f_at (x : ndarray cell) (axis p : nat) (kw : kwargs)
      (tr0 tr : list event) (out : ndarray cell) :
  well_formed x -> axis < length (shape x) -> p < n_lanes (shape x) axis ->
  all_f x axis kw tr0 = (tr, Ok out) ->
  nth p (data out) NaN = all_value_lane (lane_at x axis p).
Proof.
  intros Hwf Hax Hp H. unfold all_f, ret in H. inversion H; subst.
  rewrite guarded_at by assumption. unfold all_value_lane. f_equal.
  unfold astype_float_of_bool, np_all. cbn [elementwise data].
  rewrite (nth_map_in float_of_bool _ false NaN)
    by (cbn [reduce_axis data]; rewrite length_map, lanes_length; exact Hp).
  rewrite nth_reduce_axis by exact Hp. reflexivity.
Qed.

(** X9. At an output position whose reduced slice has a finite cell,
    [count_] holds the number of finite cells that are not zero, which is
    at most the number of finite cells of the slice; called without
    options of [reduce], it returns. *)
Theorem count_is_number_of_true_cells
    (keep_attrs : bool) (templates : string -> template)
    (x : DataArray cell) (dimension : string) (axis : nat) (p : nat) :
  array_ok x ->
  get_axis_num x dimension = Ok axis ->
  p < n_lanes (shape (values x)) axis ->
  let l := lane_at (values x) axis p in
  existsb isfinite l = true ->
  (forall kw,
      plain_options kw = true ->
      exists out, run (count_ keep_attrs templates x dimension false kw) = ([], Ok out)) /\
  (forall kw track_types tr out,
      run (count_ keep_attrs templates x dimension track_types kw) = (tr, Ok out) ->
      nth p (data (values out)) NaN = float_of_nat (true_count l)) /\
  true_count l <= finite_count l <= length l.
Proof.
  intros Hok Hax Hp l Hl.
  pose proof (get_axis_num_bound dimension Hok Hax) as Hlt.
  destruct Hok as [Hwf _]. split; [|split].
  - intros kw Hkw. unfold count_. rewrite run_reducer_plain by exact Hkw. rewrite Hax.
    eexists; reflexivity.
  - intros kw track_types tr out Hrun. unfold count_ in Hrun.
    apply reducer_returns in Hrun.
    destruct Hrun as (axis' & tr0 & cells & Hax' & Hf & Hv & _).
    rewrite Hax in Hax'. inversion Hax'; subst axis'. rewrite Hv.
    rewrite (@count_f_at (values x) axis p Hwf Hlt Hp (other_options kw) [] tr0 cells Hf).
    apply count_lane_value. exact Hl.
  - split; [apply true_count_le_finite_count|apply finite_count_le_length].
Qed.

Lemma count_is_number_of_true_cells_witness :
  exists out,
    run (count_ false (fun _ _ _ => None)
                (vector "time" None [Fin 1; NaN; Fin 0; PInf]) "time" false [])
    = ([], Ok out).
Proof.
  refine (proj1
    (@count_is_number_of_true_cells false (fun _ _ _ => None)
       (vector "time" None [Fin 1; NaN; Fin 0; PInf]) "time"%string 0 0 _ _ _ _) [] _).
  - split; reflexivity.
  - reflexivity.
  - vm_compute. lia.
  - reflexivity.
  - reflexivity.
Defined.

(** X10. At an output position whose reduced slice has a finite cell,
    [percentage_] holds a finite value between 0 and 100. *)
Theorem percentage_between_0_and_100
    (keep_attrs : bool) (templates : string -> template)
    (x : DataArray cell) (dimension : string) (axis : nat) (kw : kwargs) (p : nat) :
  array_ok x ->
  get_axis_num x dimension = Ok axis ->
  p < n_lanes (shape (values x)) axis ->
  existsb isfinite (lane_at (values x) axis p) = true ->
  forall track_types tr out,
    run (percentage_ keep_attrs templates x dimension track_types kw) = (tr, Ok out) ->
    exists q, nth p (data (values out)) NaN = Fin q /\ (0 <= q <= 100)%Q.
Proof.
  intros Hok Hax Hp Hl track_types tr out Hrun.
  pose proof (get_axis_num_bound dimension Hok Hax) as Hlt.
  destruct Hok as [Hwf _].
  unfold percentage_ in Hrun. apply reducer_returns in Hrun.
  destruct Hrun as (axis' & tr0 & cells & Hax' & Hf & Hv & _).
  rewrite Hax in Hax'. inversion Hax'; subst axis'. rewrite Hv.
  rewrite (@percentage_f_at (values x) axis p Hwf Hlt Hp (other_options kw) [] tr0 cells Hf).
  destruct (percentage_lane_within _ Hl) as (q & Eq & Hq0 & Hq1).
  exists q. split; [exact Eq|]. split; assumption.
Qed.

Lemma percentage_between_0_and_100_witness :
  exists q,
    nth 0 (data (values
             {| dims := [];
                values := {| shape := [];
                            data := [Fin (2345624805922133 # 70368744177664)] |};
                vtype := None |})) NaN = Fin q /\ (0 <= q <= 100)%Q.
Proof.
  refine (@percentage_between_0_and_100 false (fun _ _ _ => None)
            (vector "time" None [Fin 1; Fin 0; Fin 0; NaN]) "time"%string 0 [] 0
            _ _ _ _ false [] _ _).
  - split; reflexivity.
  - reflexivity.
  - vm_compute. lia.
  - reflexivity.
  - reflexivity.
Defined.

(** X11. At an output position whose reduced slice has a finite cell,
    [all_] holds 1 when no finite cell of the slice is zero and 0
    otherwise: NaN and infinite cells count as true there. *)
Theorem all_is_true_unless_a_finite_cell_is_zero
    (keep_attrs : bool) (templates : string -> template)
    (x : DataArray cell) (dimension : string) (axis : nat) (kw : kwargs) (p : nat) :
  array_ok x ->
  get_axis_num x dimension = Ok axis ->
  p < n_lanes (shape (values x)) axis ->
  let l := lane_at (values x) axis p in
  existsb isfinite l = true ->
  forall track_types tr out,
    run (all_ keep_attrs templates x dimension track_types kw) = (tr, Ok out) ->
    let v := nth p (data (values out)) NaN in
    (v = Fin 1 \/ v = Fin 0) /\
    (v = Fin 1 <-> forall c, In c l -> isfinite c = true -> truthy c = true).
Proof.
  intros Hok Hax Hp l Hl track_types tr out Hrun.
  pose proof (get_axis_num_bound dimension Hok Hax) as Hlt.
  destruct Hok as [Hwf _].
  unfold all_ in Hrun. apply reducer_returns in Hrun.
  destruct Hrun as (axis' & tr0 & cells & Hax' & Hf & Hv & _).
  rewrite Hax in Hax'. inversion Hax'; subst axis'. rewrite Hv. cbv zeta.
  rewrite (@all_f_at (values x) axis p (other_options kw) [] tr0 cells Hwf Hlt Hp Hf). fold l.
  unfold all_value_lane, guarded.
  rewrite is_all_nodata_lane_existsb, Hl. cbn [negb].
  rewrite <- all_lane_iff.
  destruct (all_lane l); cbn [float_of_bool].
  - split; [left; reflexivity|]. split; reflexivity.
  - split; [right; reflexivity|]. split; intros H; discriminate H.
Qed.

Lemma all_is_true_unless_a_finite_cell_is_zero_witness :
  let v := nth 0 [Fin 1] NaN in
  (v = Fin 1 \/ v = Fin 0) /\
  (v = Fin 1 <->
   forall c, In c (lane_at (values (vector "time" None [Fin 2; NaN; PInf])) 0 0) ->
             isfinite c = true -> truthy c = true).
Proof.
  refine (@all_is_true_unless_a_finite_cell_is_zero false (fun _ _ _ => None)
            (vector "time" None [Fin 2; NaN; PInf]) "time"%string 0 [] 0
            _ _ _ _ false []
            {| dims := []; values := {| shape := []; data := [Fin 1] |};
               vtype := None |} _).
  - split; reflexivity.
  - reflexivity.
  - vm_compute. lia.
  - reflexivity.
  - reflexivity.
Defined.

(** X12. [any_] and [count_] agree: at every output position, [any_]
    holds true exactly when [count_] holds a positive number. *)
Theorem any_iff_count_positive
    (keep_attrs : bool) (templates : string -> template)
    (x : DataArray cell) (dimension : string) (axis : nat) (kw : kwargs) (p : nat) :
  array_ok x ->
  get_axis_num x dimension = Ok axis ->
  p < n_lanes (shape (values x)) axis ->
  forall t1 t2 tr1 tr2 out_any out_count,
    run (any_ keep_attrs templates x dimension t1 kw) = (tr1, Ok out_any) ->
    run (count_ keep_attrs templates x dimension t2 kw) = (tr2, Ok out_count) ->
    (nth p (data (values out_any)) false = true <->
     exists n, 0 < n /\ nth p (data (values out_count)) NaN = float_of_nat n).
Proof.
  intros Hok Hax Hp t1 t2 tr1 tr2 out_any out_count Ha Hc.
  pose proof (get_axis_num_bound dimension Hok Hax) as Hlt.
  destruct Hok as [Hwf _].
  unfold any_ in Ha. apply reducer_returns in Ha.
  destruct Ha as (axis1 & tr01 & cells1 & Hax1 & Hf1 & Hv1 & _).
  rewrite Hax in Hax1. inversion Hax1; subst axis1. rewrite Hv1.
  unfold count_ in Hc. apply reducer_returns in Hc.
  destruct Hc as (axis2 & tr02 & cells2 & Hax2 & Hf2 & Hv2 & _).
  rewrite Hax in Hax2. inversion Hax2; subst axis2. rewrite Hv2.
  rewrite (@any_f_at (values x) axis p (other_options kw) [] tr01 cells1 Hwf Hlt Hp Hf1).
  rewrite (@count_f_at (values x) axis p Hwf Hlt Hp (other_options kw) [] tr02 cells2 Hf2).
  set (l := lane_at (values x) axis p).
  rewrite any_value_lane_true_count. split.
  - intros Hpos. exists (true_count l). split; [exact Hpos|].
    apply count_lane_value.
    apply any_value_lane_true_count, any_value_lane_iff in Hpos.
    destruct Hpos as (c & Hc & Hfc & _). apply existsb_exists. eauto.
  - intros (n & Hn & En).
    destruct (existsb isfinite l) eqn:El.
    + rewrite (count_lane_value l El) in En.
      apply float_of_nat_injective in En. lia.
    + unfold count_lane, guarded in En.
      rewrite is_all_nodata_lane_existsb, El in En. discriminate En.
Qed.

Lemma any_iff_count_positive_witness :
  nth 0 [true] false = true <->
  exists n, 0 < n /\ nth 0 [Fin 2] NaN = float_of_nat n.
Proof.
  refine (@any_iff_count_positive false (fun _ _ _ => None)
            (vector "time" None [Fin 1; NaN; Fin 0; Fin 5]) "time"%string 0 [] 0
            _ _ _ false false [] []
            {| dims := []; values := {| shape := []; data := [true] |}; vtype := None |}
            {| dims := []; values := {| shape := []; data := [Fin 2] |}; vtype := None |}
            _ _).
  - split; reflexivity.
  - reflexivity.
  - vm_compute. lia.
  - reflexivity.
  - reflexivity.
Defined.

End LogicFacts.

(** ** Further witnesses and the recipe as a whole *)

Module MoreFacts.
Import ListFacts LayoutFacts ArrayFacts BodyFacts Lanewise Contracts Recipe RecipeFacts.

Lemma thirteen_reducers_keep_missing_slices_witness :
  nth 1 (data {| shape := [2]; data := [Fin 4; NaN] |}) NaN = NaN.
Proof.
  refine (proj1 (proj2
    (MissingFacts.thirteen_reducers_keep_missing_slices
       false (fun _ _ _ => None) (fun q => q)))
    {| dims := ["time"; "x"]%string;
       values := {| shape := [2; 2]; data := [Fin 1; NaN; Fin 3; NaN] |};
       vtype := None |}
    "time"%string 0 [] 1 false []
    {| dims := ["x"%string];
       values := {| shape := [2]; data := [Fin 4; NaN] |};
       vtype := None |} _ _ _ _ _).
  - split; reflexivity.
  - reflexivity.
  - vm_compute. lia.
  - intros c Hc. vm_compute in Hc. destruct Hc as [<-|[<-|[]]]; reflexivity.
  - reflexivity.
Defined.

Section Whole.
Variables Instruction Datacube Mapping SpatialExtent TemporalExtent : Type.
Variables ConfigValue QueryProcessor Array : Type.
Variable parse :
  QueryRecipe Instruction -> Datacube -> Mapping -> SpatialExtent -> TemporalExtent ->
  config ConfigValue -> result QueryProcessor.
Variable optimize : QueryProcessor -> result QueryProcessor.
Variable qp_execute : QueryProcessor -> result (response Array).

(** X14. A recipe constructed from a dictionary of results and then
    executed hands exactly that dictionary, with its items in order, to
    the parse phase, together with the options as given; a recipe
    constructed without results hands over the empty recipe.  Whatever
    happens, parse is the first call and is made exactly once. *)
Theorem constructed_recipe_is_what_parse_receives
    (results : dict Instruction) (datacube : Datacube) (mapping : Mapping)
    (space : SpatialExtent) (time : TemporalExtent) (options : config ConfigValue) :
  dict_ok results ->
  (exists later,
      fst (execute parse optimize qp_execute (init (Some results))
                   datacube mapping space time options [])
      = CallParse results datacube mapping space time options :: later /\
      forall c, In c later ->
                match c with CallParse _ _ _ _ _ _ => False | _ => True end) /\
  (exists later,
      fst (execute parse optimize qp_execute (init None)
                   datacube mapping space time options [])
      = CallParse [] datacube mapping space time options :: later).
Proof.
  intros Hok.
  assert (E : init (Some results) = results).
  { unfold init. rewrite dict_update_fresh; [reflexivity|exact Hok]. }
  rewrite E. split.
  - unfold execute, tbind, invoke. cbn [app].
    destruct (parse results datacube mapping space time options) as [qp|e].
    + cbn [app]. destruct (optimize qp) as [o|e]; cbn [fst app].
      * eexists. split; [reflexivity|].
        intros c [<-|[<-|[]]]; exact I.
      * eexists. split; [reflexivity|]. intros c [<-|[]]; exact I.
    + eexists. split; [reflexivity|]. intros c [].
  - change (init None) with (@nil (string * Instruction)).
    unfold execute, tbind, invoke. cbn [app].
    destruct (parse [] datacube mapping space time options) as [qp|e].
    + cbn [app]. destruct (optimize qp) as [o|e]; cbn [fst app];
        eexists; reflexivity.
    + eexists; reflexivity.
Qed.
End Whole.

Lemma constructed_recipe_is_what_parse_receives_witness :
  exists later,
    fst (execute (fun (r : QueryRecipe nat) (_ _ _ _ : unit) (_ : config nat) =>
                    Ok (length r))
                 (fun qp => Ok (S qp))
                 (fun qp => Ok [("count"%string, qp)])
                 (init (Some [("map"%string, 7); ("series"%string, 8)]))
                 tt tt tt tt [("crs"%string, 3035)] [])
    = CallParse [("map"%string, 7); ("series"%string, 8)] tt tt tt tt
                [("crs"%string, 3035)] :: later.
Proof.
  destruct (@constructed_recipe_is_what_parse_receives
              nat unit unit unit unit nat nat nat
              (fun r _ _ _ _ _ => Ok (length r)) (fun qp => Ok (S qp))
              (fun qp => Ok [("count"%string, qp)])
              [("map"%string, 7); ("series"%string, 8)] tt tt tt tt
              [("crs"%string, 3035)]) as [(later & E & _) _].
  - repeat constructor; simpl; intuition discriminate.
  - exists later. exact E.
Defined.

End MoreFacts.
